(** * go-webview2: the RPC bridge, the dispatch queue and the size hints

    A shallow embedding of [webview.go] and [common.go].

    - The packages [reflect], [encoding/json] and the Win32 calls are not
      part of the repository: their behaviour is a parameter of the
      development (class [Platform]).
    - A method of [*WebView] becomes a computation in the monad [M]: it
      reads and writes the state [St], emits the calls it makes to the
      outside (browser control, user32, log, bound handlers) as a list of
      [Event]s, and yields [None] when the call does not return (a run-time
      panic, or [Lock] on the non-reentrant mutex the thread already holds).
    - The concurrent part of the drain pass of [Run] is a labelled step
      relation ([dstep]) in which other threads call [Dispatch]. *)

From Stdlib Require Import ZArith List Bool String Ascii DecimalString.
From stdpp Require Import base option list gmap strings.

#[local] Set Warnings "-register-all".

Local Open Scope string_scope.
Local Open Scope list_scope.
Local Open Scope Z_scope.

(** ** What the program takes from outside *)

(** [rpcMessage] (webview.go:81); a [json.RawMessage] is a byte string. *)
Definition RawMessage := string.

Record rpcMessage := mkRpc {
  ID : Z;
  Method : string;
  Params : list RawMessage
}.

(** [w32.Point] and [w32.Rect]. *)
Record Point := mkPoint { X : Z; Y : Z }.
Record Rect := mkRect { Left : Z; Top : Z; Right : Z; Bottom : Z }.

Class Platform := {
  (** package reflect: run-time types, and the dynamic value held by a
      non-nil [interface{}] *)
  GoType : Type;
  GoValue : Type;
  (** [t.Implements(errorType)] *)
  Implements_error : GoType -> bool;
  (** [t.Elem()] of the slice type of a variadic parameter *)
  Elem : GoType -> GoType;
  (** [v.(error).Error()] *)
  Error_text : GoValue -> string;
  (** a Go string boxed in an [interface{}] *)
  String_value : string -> GoValue;

  (** package encoding/json; [inr e] is a non-nil error [e] *)
  (** [json.Unmarshal([]byte(msg), &d)] with [d : rpcMessage] *)
  json_Unmarshal_rpcMessage : string -> rpcMessage + GoValue;
  (** [json.Unmarshal(raw, reflect.New(t).Interface())]: the decoded
      content ([None] is a nil interface), or the error *)
  json_Unmarshal : RawMessage -> GoType -> option GoValue + GoValue;
  (** [json.Marshal(v)] *)
  json_Marshal : option GoValue -> string + GoValue;
  json_Marshal_nil : json_Marshal None = inl "null";

  (** the state of the application that bound handlers and dispatched
      closures act on *)
  Host : Type;

  (** constants of internal/w32 *)
  WMApp : Z;
  WMQuit : Z;
  GWLStyle : Z;
  WSThickFrame : Z;
  WSMaximizeBox : Z;
  WSOverlappedWindow : Z;
  SystemMetricsCxScreen : Z;
  SystemMetricsCyScreen : Z;
  SWPNoZOrder : Z;
  SWPNoActivate : Z;
  SWPNoMove : Z;
  SWPFrameChanged : Z;
  (** what [AdjustWindowRect] writes back through its pointer *)
  User32AdjustWindowRect : Rect -> Z -> Rect
}.

(** ** Machine integers (windows/amd64) *)

Definition wrap_signed (bits : Z) (z : Z) : Z :=
  (z + 2 ^ (bits - 1)) mod 2 ^ bits - 2 ^ (bits - 1).

(** [int32(x)] *)
Definition int32 (z : Z) : Z := wrap_signed 32 z.
(** [int(x)] for [x : uintptr] *)
Definition int_ (z : Z) : Z := wrap_signed 64 z.
(** [uintptr(x)] *)
Definition uintptr (z : Z) : Z := z mod 2 ^ 64.

(** [strconv.Itoa] *)
Definition Itoa (z : Z) : string := NilZero.string_of_int (Z.to_int z).

(** ** common.go *)

(** [type Hint int] with its [iota] constants. *)
Definition Hint := Z.
Definition HintNone : Hint := 0.
Definition HintFixed : Hint := 1.
Definition HintMin : Hint := 2.
Definition HintMax : Hint := 3.
Definition HintCenter : Hint := 4.

Section Model.
Context {P : Platform}.

(** ** Values of the program *)

(** A Go [error].  [errors.New] allocates a value of this package's own
    making, distinct from every error that a handler or encoding/json hands
    over. *)
Inductive error :=
| errors_New (text : string)
| go_error (v : GoValue).

(** [err.Error()] *)
Definition Error (e : error) : string :=
  match e with
  | errors_New text => text
  | go_error v => Error_text v
  end.

(** A [reflect.Value]: its static type and what [.Interface()] gives
    ([None] is the nil interface). *)
Record Value := mkValue {
  Type_ : GoType;
  Interface : option GoValue
}.

(** A Go function seen through [reflect]: [v.Type().In(i)],
    [v.Type().IsVariadic()], [v.Type().NumOut()] and [v.Call(args)].
    A call acts on the application's state only. *)
Record Func := mkFunc {
  ins : list GoType;
  IsVariadic : bool;
  outs : list GoType;
  Call : list Value -> Host -> list Value * Host
}.

Definition NumIn (f : Func) : Z := Z.of_nat (length (ins f)).
Definition NumOut (f : Func) : Z := Z.of_nat (length (outs f)).
(** [In(i)] panics out of range. *)
Definition In_ (f : Func) (i : Z) : option GoType :=
  if i <? 0 then None else nth_error (ins f) (Z.to_nat i).

(** The argument of [Bind]: any Go value; [reflect.ValueOf(f).Kind()] is
    [reflect.Func] for a function only. *)
Inductive Any :=
| AnyFunc (f : Func)
| AnyOther (v : option GoValue).

(** A [func()] handed to [Dispatch].  A closure outside the package reaches
    the WebView through its exported methods only; its body is the sequence
    of what it does. *)
Inductive Action :=
| CallEval (js : string)               (* w.Eval(js) *)
| CallDispatch (body : list Action)    (* w.Dispatch(func() { body }) *)
| HostCode (k : Host -> Host).         (* code of the application *)

Definition Task := list Action.

(** [WebView] (webview.go:48).  [Browser] is the external control: the calls
    made to it are events.  [m] is [true] while the mutex is held.
    [bindings] is written by [Bind] only, after its [Kind] check, so that it
    holds functions. *)
Record WebView := mkWebView {
  HWND : Z;
  mainthread : Z;
  maxsz : Point;
  minsz : Point;
  m : bool;
  bindings : gmap string Func;
  dispatchq : list Task
}.

(** What user32 answers about the window. *)
Record Window := mkWindow {
  style : Z;                     (* GetWindowLongPtrW(HWND, GWLStyle) *)
  screen : Z * Z;                (* GetSystemMetrics, cx and cy *)
  windowRect : option Rect       (* GetWindowRect; None when it returns 0 *)
}.

Record St := mkSt {
  wv : WebView;
  host : Host;
  win : Window
}.

(** Calls that leave the package. *)
Inductive Event :=
| EvLog (line : string)                          (* log.Printf *)
| EvCall (method : string) (args : list Value)   (* v.Call(args) *)
| EvBrowserEval (js : string)                    (* Browser.Eval *)
| EvBrowserInit (js : string)                    (* Browser.Init *)
| EvBrowserResize                                (* Browser.Resize *)
| EvPostThreadMessage (thread msg : Z)           (* PostThreadMessageW *)
| EvSetWindowLongPtr (hwnd index value : Z)
| EvMoveWindow (hwnd x y w h : Z)
| EvSetWindowPos (hwnd x y cx cy flags : Z)
| EvTranslateMessage (msg : Z)
| EvDispatchMessage (msg : Z).

(** ** The monad of the methods *)

Definition M (A : Type) : Type := St -> option (A * St * list Event).

Definition ret {A} (a : A) : M A := fun s => Some (a, s, []).

Definition bind {A B} (c : M A) (k : A -> M B) : M B :=
  fun s =>
    match c s with
    | None => None
    | Some (a, s1, e1) =>
      match k a s1 with
      | None => None
      | Some (b, s2, e2) => Some (b, s2, e1 ++ e2)
      end
    end.

Definition emit (e : Event) : M unit := fun s => Some (tt, s, [e]).
Definition panic {A} : M A := fun _ => None.
Definition get_wv : M WebView := fun s => Some (wv s, s, []).
Definition put_wv (w : WebView) : M unit :=
  fun s => Some (tt, mkSt w (host s) (win s), []).

End Model.

Notation "x <- c ;; k" := (bind c (fun x => k))
  (at level 100, c at next level, right associativity).
Notation "c ;;; k" := (bind c (fun _ => k))
  (at level 100, right associativity).

Section Methods.
Context {P : Platform}.

(** Field updates. *)
Definition with_m (b : bool) (w : WebView) : WebView :=
  mkWebView (HWND w) (mainthread w) (maxsz w) (minsz w) b (bindings w) (dispatchq w).
Definition with_dispatchq (q : list Task) (w : WebView) : WebView :=
  mkWebView (HWND w) (mainthread w) (maxsz w) (minsz w) (m w) (bindings w) q.
Definition with_bindings (b : gmap string Func) (w : WebView) : WebView :=
  mkWebView (HWND w) (mainthread w) (maxsz w) (minsz w) (m w) b (dispatchq w).
Definition with_maxsz (p : Point) (w : WebView) : WebView :=
  mkWebView (HWND w) (mainthread w) p (minsz w) (m w) (bindings w) (dispatchq w).
Definition with_minsz (p : Point) (w : WebView) : WebView :=
  mkWebView (HWND w) (mainthread w) (maxsz w) p (m w) (bindings w) (dispatchq w).
Definition with_wv (w : WebView) (s : St) : St := mkSt w (host s) (win s).
Definition with_host (h : Host) (s : St) : St := mkSt (wv s) h (win s).
Definition with_win (x : Window) (s : St) : St := mkSt (wv s) (host s) x.

Definition get : M St := fun s => Some (s, s, []).
Definition put (s : St) : M unit := fun _ => Some (tt, s, []).

(** [sync.Mutex]: [Lock] on a held mutex never returns in a run of one
    thread; [Unlock] of a free mutex is a fatal error. *)
Definition Lock : M unit :=
  fun s => if m (wv s) then None else Some (tt, with_wv (with_m true (wv s)) s, []).
Definition Unlock : M unit :=
  fun s => if m (wv s) then Some (tt, with_wv (with_m false (wv s)) s, []) else None.

(** [jsString] (webview.go:87): the error of [json.Marshal] is dropped. *)
Definition jsString (v : option GoValue) : string :=
  match json_Marshal v with
  | inl b => b
  | inr _ => ""
  end.

(** [Init] and [Eval] (webview.go:341, 345). *)
Definition Init (js : string) : M unit := emit (EvBrowserInit js).
Definition Eval (js : string) : M unit := emit (EvBrowserEval js).

(** [Dispatch] (webview.go:349). *)
Definition Dispatch (f : Task) : M unit :=
  Lock ;;;
  w <- get_wv ;;
  put_wv (with_dispatchq (dispatchq w ++ [f]) w) ;;;
  Unlock ;;;
  w <- get_wv ;;
  emit (EvPostThreadMessage (mainthread w) WMApp).

(** The loop over [d.Params] of [callbinding] (webview.go:126-138), from
    index [i] with [args] collected so far.  [None]: [In] panicked. *)
Fixpoint decode_params (f : Func) (isVariadic : bool) (numIn : Z) (i : Z)
    (params : list RawMessage) (args : list Value) : option (list Value + error) :=
  match params with
  | [] => Some (inl args)
  | p :: rest =>
    let t := if isVariadic && (numIn - 1 <=? i)
             then option_map Elem (In_ f (numIn - 1))
             else In_ f i in
    match t with
    | None => None
    | Some t =>
      match json_Unmarshal p t with
      | inr err => Some (inr (go_error err))
      | inl c => decode_params f isVariadic numIn (i + 1) rest (args ++ [mkValue t c])
      end
    end
  end.

(** The [switch len(res)] of [callbinding] (webview.go:142-169). *)
Definition results (res : list Value) : option GoValue * option error :=
  match res with
  | [] => (None, None)
  | [r0] =>
    if Implements_error (Type_ r0) then
      match Interface r0 with
      | Some e => (None, Some (go_error e))
      | None => (None, None)
      end
    else (Interface r0, None)
  | [r0; r1] =>
    if negb (Implements_error (Type_ r1)) then
      (None, Some (errors_New "second return value must be an error"))
    else
      match Interface r1 with
      | None => (Interface r0, None)
      | Some e => (Interface r0, Some (go_error e))
      end
  | _ => (None, Some (errors_New "unexpected number of return values"))
  end.

(** [callbinding] (webview.go:112). *)
Definition callbinding (d : rpcMessage) : M (option GoValue * option error) :=
  Lock ;;;
  w <- get_wv ;;
  let f := bindings w !! Method d in
  Unlock ;;;
  match f with
  | None => ret (None, None)
  | Some v =>
    let isVariadic := IsVariadic v in
    let numIn := NumIn v in
    let len := Z.of_nat (length (Params d)) in
    if (isVariadic && (len <? numIn - 1)) || (negb isVariadic && negb (len =? numIn))
    then ret (None, Some (errors_New "function arguments mismatch"))
    else
      match decode_params v isVariadic numIn 0 (Params d) [] with
      | None => panic
      | Some (inr err) => ret (None, Some err)
      | Some (inl args) =>
        s <- get ;;
        let (res, h) := Call v args (host s) in
        put (with_host h s) ;;;
        emit (EvCall (Method d) args) ;;;
        ret (results res)
      end
  end.

(** [msgcb] (webview.go:89). *)
Definition msgcb (msg : string) : M unit :=
  match json_Unmarshal_rpcMessage msg with
  | inr err => emit (EvLog ("invalid RPC message: " +:+ Error_text err))
  | inl d =>
    let id := Itoa (ID d) in
    r <- callbinding d ;;
    match r with
    | (_, Some err) =>
      Dispatch [CallEval ("window._rpc[" +:+ id +:+ "].reject(" +:+ jsString (Some (String_value (Error err))) +:+ "); window._rpc[" +:+ id +:+ "] = undefined")]
    | (res, None) =>
      match json_Marshal res with
      | inr err =>
        Dispatch [CallEval ("window._rpc[" +:+ id +:+ "].reject(" +:+ jsString (Some (String_value (Error_text err))) +:+ "); window._rpc[" +:+ id +:+ "] = undefined")]
      | inl b =>
        Dispatch [CallEval ("window._rpc[" +:+ id +:+ "].resolve(" +:+ b +:+ "); window._rpc[" +:+ id +:+ "] = undefined")]
      end
    end
  end.

(** One action of a dispatched closure, and the call [v()]. *)
Definition run_action (a : Action) : M unit :=
  match a with
  | CallEval js => Eval js
  | CallDispatch body => Dispatch body
  | HostCode k => s <- get ;; put (with_host (k (host s)) s)
  end.

Fixpoint call (v : Task) : M unit :=
  match v with
  | [] => ret tt
  | a :: rest => run_action a ;;; call rest
  end.

(** [for _, v := range q { v() }] *)
Fixpoint range_call (q : list Task) : M unit :=
  match q with
  | [] => ret tt
  | v :: rest => call v ;;; range_call rest
  end.

(** The [WMApp] branch of [Run] (webview.go:258-264). *)
Definition drain : M unit :=
  Lock ;;;
  w <- get_wv ;;
  let q := [] ++ dispatchq w in
  put_wv (with_dispatchq [] w) ;;;
  Unlock ;;;
  range_call q.

(** [Run] (webview.go:248) on the messages that [GetMessageW] delivers, as
    far as they are listed. *)
Fixpoint Run (msgs : list Z) : M unit :=
  match msgs with
  | [] => ret tt
  | Message :: rest =>
    if Message =? WMApp then
      drain ;;;
      emit (EvTranslateMessage Message) ;;;
      emit (EvDispatchMessage Message) ;;;
      Run rest
    else if Message =? WMQuit then ret tt
    else
      emit (EvTranslateMessage Message) ;;;
      emit (EvDispatchMessage Message) ;;;
      Run rest
  end.

(** [SetSize] (webview.go:293). *)
Definition SetSize (width height : Z) (hints : Hint) : M unit :=
  s <- get ;;
  let w := wv s in
  let index := GWLStyle in
  let style0 := style (win s) in
  let style1 :=
    if hints =? HintFixed
    then Z.ldiff style0 (Z.lor WSThickFrame WSMaximizeBox)
    else Z.lor style0 (Z.lor WSThickFrame WSMaximizeBox) in
  put (with_win (mkWindow style1 (screen (win s)) (windowRect (win s))) s) ;;;
  emit (EvSetWindowLongPtr (HWND w) (uintptr index) style1) ;;;
  if hints =? HintMax then
    w <- get_wv ;;
    put_wv (with_maxsz (mkPoint (int32 width) (Y (maxsz w))) w) ;;;
    w <- get_wv ;;
    put_wv (with_maxsz (mkPoint (X (maxsz w)) (int32 height)) w)
  else if hints =? HintMin then
    w <- get_wv ;;
    put_wv (with_minsz (mkPoint (int32 width) (Y (minsz w))) w) ;;;
    w <- get_wv ;;
    put_wv (with_minsz (mkPoint (X (minsz w)) (int32 height)) w)
  else if hints =? HintCenter then
    let scrWidth := fst (screen (win s)) in
    let scrHeight := snd (screen (win s)) in
    match windowRect (win s) with
    | None => ret tt
    | Some rect =>
      let left := int32 ((int_ scrWidth - width) ÷ 2) in
      let top := int32 ((int_ scrHeight - height) ÷ 2) in
      emit (EvMoveWindow (HWND w) (uintptr left) (uintptr top) (uintptr width) (uintptr height)) ;;;
      emit EvBrowserResize
    end
  else
    let r := User32AdjustWindowRect (mkRect 0 0 (int32 width) (int32 height)) WSOverlappedWindow in
    emit (EvSetWindowPos (HWND w) (uintptr (Left r)) (uintptr (Top r))
            (uintptr (int32 (Right r - Left r))) (uintptr (int32 (Bottom r - Top r)))
            (Z.lor (Z.lor (Z.lor SWPNoZOrder SWPNoActivate) SWPNoMove) SWPFrameChanged)) ;;;
    emit EvBrowserResize.

(** The script that [Bind] injects after the name (webview.go:368-385). *)
Definition bind_script : string := "
		var RPC = window._rpc = (window._rpc || {nextSeq: 1});
		window[name] = function() {
		  var seq = RPC.nextSeq++;
		  var promise = new Promise(function(resolve, reject) {
			RPC[seq] = {
			  resolve: resolve,
			  reject: reject,
			};
		  });
		  window.external.invoke(JSON.stringify({
			id: seq,
			method: name,
			params: Array.prototype.slice.call(arguments),
		  }));
		  return promise;
		}
	})()".

(** [Bind] (webview.go:356); the result is the returned [error]. *)
Definition Bind (name : string) (f : Any) : M (option error) :=
  match f with
  | AnyOther _ => ret (Some (errors_New "only functions can be bound"))
  | AnyFunc v =>
    if NumOut v >? 2
    then ret (Some (errors_New "function may only return a value or a value+error"))
    else
      Lock ;;;
      w <- get_wv ;;
      put_wv (with_bindings (<[name := v]> (bindings w)) w) ;;;
      Unlock ;;;
      Init ("(function() { var name = " +:+ jsString (Some (String_value name)) +:+ ";" +:+ bind_script) ;;;
      ret None
  end.

End Methods.

(** ** The drain pass among other threads

    The [WMApp] branch of [Run], statement by statement, while other threads
    call [Dispatch].  The mutex makes the critical section of a [Dispatch]
    one step that needs the mutex free. *)

Section Drain.
Context {P : Platform}.









End Drain.

(** ** The response of the spec

    The Outcome of an invocation is the pair that [callbinding] returns:
    Void is [(nil, nil)], Ok(v) is [(v, nil)], Err is a non-nil error. *)

Section Response.
Context {P : Platform}.

Definition Void : option GoValue * option error := (None, None).
Definition Ok (v : option GoValue) : option GoValue * option error := (v, None).

(** [window._rpc[<id>].resolve(<json>); window._rpc[<id>] = undefined] *)
Definition resolve_script (id json : string) : string :=
  "window._rpc[" +:+ id +:+ "].resolve(" +:+ json +:+ "); window._rpc[" +:+ id +:+ "] = undefined".

(** the [.reject(<jsonString>)] variant, for the message [text] *)
Definition reject_script (id text : string) : string :=
  "window._rpc[" +:+ id +:+ "].reject(" +:+ jsString (Some (String_value text)) +:+ "); window._rpc[" +:+ id +:+ "] = undefined".

(** The statement delivered for an Outcome of request [id]. *)
Definition response (id : string) (r : option GoValue * option error) : string :=
  match r with
  | (_, Some err) => reject_script id (Error err)
  | (v, None) =>
    match json_Marshal v with
    | inl json => resolve_script id json
    | inr err => reject_script id (Error_text err)
    end
  end.

(** The type a parameter at position [i] is decoded into: the declared type
    at that position, or the element type of the variadic slice for the
    trailing positions. *)
Definition param_type (f : Func) (i : Z) : option GoType :=
  if IsVariadic f && (NumIn f - 1 <=? i)
  then option_map Elem (In_ f (NumIn f - 1))
  else In_ f i.

(** The arity check of the spec fails. *)
Definition arity_mismatch (f : Func) (n : Z) : Prop :=
  (IsVariadic f = false /\ n <> NumIn f) \/ (IsVariadic f = true /\ n < NumIn f - 1).

End Response.

(** ** A small platform, to run the model on

    A fragment of Go: [int], [string], [error], [chan int] and slices; of
    encoding/json, what it does on these values, on strings that need no
    escape, on decimal numbers in canonical form and on the request
    envelopes listed in [requests]. *)

Module Demo.

Inductive ty := TInt | TString | TError | TChan | TSlice (e : ty).

Inductive val :=
| VInt (n : Z)
| VString (s : string)
| VError (text : string)     (* an error with this text *)
| VChan.

Definition quote : string := String (ascii_of_nat 34) EmptyString.

Definition marshal (v : option val) : string + val :=
  match v with
  | None => inl "null"
  | Some (VInt n) => inl (Itoa n)
  | Some (VString s) => inl (quote +:+ s +:+ quote)
  | Some (VError _) => inl "{}"
  | Some VChan => inr (VError "json: unsupported type: chan int")
  end.

Definition syntax_error (raw : string) : val :=
  VError ("invalid character '" +:+ substring 0 1 raw +:+ "' looking for beginning of value").

Definition unmarshal (raw : string) (t : ty) : option val + val :=
  match t with
  | TInt =>
    match NilZero.int_of_string raw with
    | Some n => if String.eqb (Itoa (Z.of_int n)) raw then inl (Some (VInt (Z.of_int n)))
                else inr (syntax_error raw)
    | None => inr (syntax_error raw)
    end
  | _ => inr (syntax_error raw)
  end.

Fixpoint join (l : list string) : string :=
  match l with
  | [] => EmptyString
  | [x] => x
  | x :: rest => x +:+ "," +:+ join rest
  end.

(** The envelope as the injected script writes it with [JSON.stringify]. *)
Definition envelope (d : rpcMessage) : string :=
  "{" +:+ quote +:+ "id" +:+ quote +:+ ":" +:+ Itoa (ID d) +:+ ","
      +:+ quote +:+ "method" +:+ quote +:+ ":" +:+ quote +:+ Method d +:+ quote +:+ ","
      +:+ quote +:+ "params" +:+ quote +:+ ":[" +:+ join (Params d) +:+ "]}".

Definition requests : list rpcMessage :=
  [ mkRpc 1 "add" ["2"; "3"];
    mkRpc 2 "fail" [];
    mkRpc 3 "sum" [];
    mkRpc 4 "sum" ["1"; "2"; "3"];
    mkRpc 5 "add" ["1"];
    mkRpc 6 "add" ["1"; "x"];
    mkRpc 7 "nope" [];
    mkRpc 8 "open" [];
    mkRpc 9 "pair" [];
    mkRpc 10 "tick" [] ].

Definition unmarshal_rpcMessage (msg : string) : rpcMessage + val :=
  match find (fun d => String.eqb (envelope d) msg) requests with
  | Some d => inl d
  | None => inr (syntax_error msg)
  end.

Definition platform : Platform := {|
  GoType := ty;
  GoValue := val;
  Implements_error := fun t => match t with TError => true | _ => false end;
  Elem := fun t => match t with TSlice e => e | _ => t end;
  Error_text := fun v => match v with VError text => text | _ => EmptyString end;
  String_value := VString;
  json_Unmarshal_rpcMessage := unmarshal_rpcMessage;
  json_Unmarshal := unmarshal;
  json_Marshal := marshal;
  json_Marshal_nil := eq_refl;
  (* the number of handler calls and host actions so far *)
  Host := nat;
  WMApp := 0x8000;
  WMQuit := 0x0012;
  GWLStyle := -16;
  WSThickFrame := 0x40000;
  WSMaximizeBox := 0x10000;
  WSOverlappedWindow := 0xCF0000;
  SystemMetricsCxScreen := 0;
  SystemMetricsCyScreen := 1;
  SWPNoZOrder := 0x4;
  SWPNoActivate := 0x10;
  SWPNoMove := 0x2;
  SWPFrameChanged := 0x20;
  (* a window without a frame *)
  User32AdjustWindowRect := fun r _ => r
|}.

#[local] Existing Instance platform.

Definition int_of (v : Value) : Z :=
  match Interface v with
  | Some (VInt n) => n
  | _ => 0
  end.

(** [func(a, b int) int { return a + b }] *)
Definition add_fn : Func :=
  mkFunc [TInt; TInt] false [TInt]
    (fun args h =>
       match args with
       | [a; b] => ([mkValue TInt (Some (VInt (int_of a + int_of b)))], S h)
       | _ => ([mkValue TInt (Some (VInt 0))], S h)
       end).

(** [func() (int, error) { return 0, errors.New("boom") }] *)
Definition fail_fn : Func :=
  mkFunc [] false [TInt; TError]
    (fun _ h => ([mkValue TInt (Some (VInt 0)); mkValue TError (Some (VError "boom"))], S h)).

(** [func(nums ...int) int], the sum of [nums] *)
Definition sum_fn : Func :=
  mkFunc [TSlice TInt] true [TInt]
    (fun args h => ([mkValue TInt (Some (VInt (fold_right Z.add 0 (map int_of args))))], S h)).

(** [func() chan int] *)
Definition open_fn : Func :=
  mkFunc [] false [TChan] (fun _ h => ([mkValue TChan (Some VChan)], S h)).

(** [func() (int, int) { return 1, 2 }] *)
Definition pair_fn : Func :=
  mkFunc [] false [TInt; TInt]
    (fun _ h => ([mkValue TInt (Some (VInt 1)); mkValue TInt (Some (VInt 2))], S h)).

(** [func() { }] *)
Definition tick_fn : Func := mkFunc [] false [] (fun _ h => ([], S h)).

(** [func() (int, int, error)] *)
Definition triple_fn : Func :=
  mkFunc [] false [TInt; TInt; TError]
    (fun _ h => ([mkValue TInt (Some (VInt 1)); mkValue TInt (Some (VInt 2)); mkValue TError None], S h)).

Definition table : gmap string Func :=
  <["add" := add_fn]> (<["fail" := fail_fn]> (<["sum" := sum_fn]> (<["open" := open_fn]>
    (<["pair" := pair_fn]> (<["tick" := tick_fn]> ∅))))).

Definition window : Window := mkWindow 0xCF0000 (1920, 1080) (Some (mkRect 0 0 640 480)).

(** A WebView after [NewWindow] and some [Bind]s, with [q] queued. *)
Definition webview (q : list Task) : WebView :=
  mkWebView 0x1A2B 77 (mkPoint 0 0) (mkPoint 0 0) false table q.

Definition state (q : list Task) : St := mkSt (webview q) 0%nat window.


(** A WebView right after [NewWindow]: nothing bound, nothing queued. *)
Definition fresh : St :=
  mkSt (mkWebView 0x1A2B 77 (mkPoint 0 0) (mkPoint 0 0) false ∅ []) 0%nat window.

Definition t1 : Task := [CallEval "a()"].
Definition t3 : Task := [CallEval "d()"].
Definition t4 : Task := [CallEval "e()"].

End Demo.

(** ** The rest of webview.go: window contexts, the window procedure,
    the title *)

(** [w32.MinMaxInfo], the MINMAXINFO that [lp] points to. *)
Record MinMaxInfo := mkMinMaxInfo {
  PtReserved : Point;
  PtMaxSize : Point;
  PtMaxPosition : Point;
  PtMinTrackSize : Point;
  PtMaxTrackSize : Point
}.

(** What [wndproc] and [SetTitle] take from internal/w32 and
    golang.org/x/sys/windows. *)
Class User32 := {
  WMSize : Z;
  WMClose : Z;
  WMDestroy : Z;
  WMGetMinMaxInfo : Z;
  (** the result of [DefWindowProcW] *)
  User32DefWindowProcW : Z -> Z -> Z -> Z -> Z;
  (** [utf16.Encode([]rune(s))] *)
  utf16_Encode : string -> list Z
}.

Section Window.
Context {P : Platform} {U : User32}.

(** What is stored for a window: nil (also what a missing key reads as), the
    [*WebView] of the state, or another value. *)
Inductive Data :=
| DataNil
| DataWebView
| DataOther (v : GoValue).

(** [windowContext] and [windowContextSync] (webview.go:23-26): the map, and
    the [sync.RWMutex] as its writer flag and its count of readers. *)
Record Registry := mkRegistry {
  windowContext : gmap Z Data;
  writer : bool;
  readers : nat
}.

(** [getWindowContext] (webview.go:28): [RLock] waits for a writer; the
    deferred [RUnlock] gives the read lock back. *)
Definition getWindowContext (wnd : Z) (r : Registry) : option (Data * Registry) :=
  if writer r then None
  else
    let r1 := mkRegistry (windowContext r) (writer r) (S (readers r)) in
    let data := default DataNil (windowContext r1 !! wnd) in
    Some (data, mkRegistry (windowContext r1) (writer r1) (pred (readers r1))).

(** [setWindowContext] (webview.go:34): [Lock] waits for the writer and the
    readers. *)
Definition setWindowContext (wnd : Z) (data : Data) (r : Registry) : option Registry :=
  if writer r || negb (Nat.eqb (readers r) 0) then None
  else
    let r1 := mkRegistry (windowContext r) true (readers r) in
    let r2 := mkRegistry (<[wnd := data]> (windowContext r1)) (writer r1) (readers r1) in
    Some (mkRegistry (windowContext r2) false (readers r2)).

(** Calls to the outside made by the functions of this part. *)
Inductive Syscall :=
| Outside (e : Event)                             (* a call listed in [Event] *)
| SysDestroyWindow (hwnd : Z)                     (* User32DestroyWindow *)
| SysPostQuitMessage (code : Z)                   (* User32PostQuitMessage *)
| SysDefWindowProcW (hwnd msg wp lp : Z)          (* User32DefWindowProcW *)
| SysSetWindowTextW (hwnd : Z) (text : list Z).   (* User32SetWindowTextW *)

(** [Terminate] (webview.go:273). *)
Definition Terminate : list Syscall := [SysPostQuitMessage 0].

(** [wndproc] (webview.go:172).  [lpmmi] is the MINMAXINFO at [lp]; the
    result is the return value, the MINMAXINFO afterwards and the calls made.
    [None]: [RLock] does not return. *)
Definition wndproc (r : Registry) (s : St) (hwnd msg wp lp : Z) (lpmmi : MinMaxInfo)
    : option (Z * MinMaxInfo * list Syscall) :=
  match getWindowContext hwnd r with
  | None => None
  | Some (DataWebView, _) =>
    let w := wv s in
    if msg =? WMSize then Some (0, lpmmi, [Outside EvBrowserResize])
    else if msg =? WMClose then Some (0, lpmmi, [SysDestroyWindow hwnd])
    else if msg =? WMDestroy then Some (0, lpmmi, Terminate)
    else if msg =? WMGetMinMaxInfo then
      let lpmmi1 :=
        if (X (maxsz w) >? 0) && (Y (maxsz w) >? 0)
        then mkMinMaxInfo (PtReserved lpmmi) (maxsz w) (PtMaxPosition lpmmi)
                          (PtMinTrackSize lpmmi) (maxsz w)
        else lpmmi in
      let lpmmi2 :=
        if (X (minsz w) >? 0) && (Y (minsz w) >? 0)
        then mkMinMaxInfo (PtReserved lpmmi1) (PtMaxSize lpmmi1) (PtMaxPosition lpmmi1)
                          (minsz w) (PtMaxTrackSize lpmmi1)
        else lpmmi1 in
      Some (0, lpmmi2, [])
    else
      Some (User32DefWindowProcW hwnd msg wp lp, lpmmi, [SysDefWindowProcW hwnd msg wp lp])
  | Some (_, _) =>
    Some (User32DefWindowProcW hwnd msg wp lp, lpmmi, [SysDefWindowProcW hwnd msg wp lp])
  end.

(** [windows.UTF16FromString]: a NUL in [s] is an error (EINVAL); otherwise
    the UTF-16 of [s] with a terminating NUL. *)
Definition has_NUL (s : string) : bool :=
  existsb (fun c => Ascii.eqb c zero) (list_ascii_of_string s).

Definition UTF16FromString (s : string) : option (list Z) :=
  if has_NUL s then None else Some (utf16_Encode s ++ [0]).

(** [SetTitle] (webview.go:285): the text at [&_title[0]] goes to
    [SetWindowTextW].  [None]: the index panics. *)
Definition SetTitle (title : string) (s : St) : option (list Syscall) :=
  let _title :=
    match UTF16FromString title with
    | Some t => t
    | None => default [] (UTF16FromString EmptyString)
    end in
  match _title with
  | [] => None
  | _ => Some [SysSetWindowTextW (HWND (wv s)) _title]
  end.

(** Successive calls [Dispatch(f)] for the closures of [fs]. *)
Fixpoint dispatch_all (fs : list Task) : M unit :=
  match fs with
  | [] => ret tt
  | f :: rest => Dispatch f ;;; dispatch_all rest
  end.


(** What a closure does, read off its body: the closures it dispatches, the
    calls it makes (on the thread [thread] of the loop), and the host state
    it leaves. *)
Definition dispatched_by (v : Task) : list Task :=
  flat_map (fun a => match a with CallDispatch body => [body] | _ => [] end) v.

Definition calls_of (thread : Z) (v : Task) : list Event :=
  flat_map (fun a =>
              match a with
              | CallEval js => [EvBrowserEval js]
              | CallDispatch _ => [EvPostThreadMessage thread WMApp]
              | HostCode _ => []
              end) v.

Definition host_after (v : Task) (h : Host) : Host :=
  fold_left (fun h a => match a with HostCode k => k h | _ => h end) v h.



End Window.

(** ** The small platform, continued *)

Module DemoWindow.

#[local] Existing Instance Demo.platform.

(** The message numbers of Win32; [DefWindowProcW] answers 0; titles are
    ASCII, one UTF-16 unit for each character. *)
Definition user32 : User32 := {|
  WMSize := 0x0005;
  WMClose := 0x0010;
  WMDestroy := 0x0002;
  WMGetMinMaxInfo := 0x0024;
  User32DefWindowProcW := fun _ _ _ _ => 0;
  utf16_Encode := fun s => map (fun c => Z.of_nat (nat_of_ascii c)) (list_ascii_of_string s)
|}.

#[local] Existing Instance user32.

(** The contexts after [Create]: the window of the WebView is registered. *)
Definition registry : Registry := mkRegistry (<[0x1A2B := DataWebView]> ∅) false 0.

(** A MINMAXINFO as the system fills it in. *)
Definition minmax : MinMaxInfo :=
  mkMinMaxInfo (mkPoint 0 0) (mkPoint 1920 1080) (mkPoint 0 0) (mkPoint 136 39)
               (mkPoint 1932 1092).


End DemoWindow.

(** * Properties *)

Section Properties.
Context {P : Platform}.

Implicit Types (s : St) (w : WebView) (d : rpcMessage) (f : Func).

(** ** The mutex and the queue *)

Lemma relock s :
  m (wv s) = false ->
  with_wv (with_m false (wv (with_wv (with_m true (wv s)) s))) (with_wv (with_m true (wv s)) s) = s.
Proof.
  destruct s as [[] ? ?]; simpl; intros ->; reflexivity.
Qed.

Lemma Lock_free s :
  m (wv s) = false -> Lock s = Some (tt, with_wv (with_m true (wv s)) s, []).
Proof. unfold Lock; intros ->; reflexivity. Qed.



(** [Dispatch] on a free mutex appends the closure and posts the wake-up. *)
Lemma Dispatch_free t s :
  m (wv s) = false ->
  Dispatch t s =
    Some (tt, with_wv (with_dispatchq (dispatchq (wv s) ++ [t]) (wv s)) s,
          [EvPostThreadMessage (mainthread (wv s)) WMApp]).
Proof.
  destruct s as [[] ? ?]; simpl; intros ->; reflexivity.
Qed.


(** ** [callbinding], branch by branch *)

Lemma callbinding_eq d s :
  m (wv s) = false ->
  callbinding d s =
    match bindings (wv s) !! Method d with
    | None => Some ((None, None), s, [])
    | Some v =>
      let len := Z.of_nat (length (Params d)) in
      if (IsVariadic v && (len <? NumIn v - 1)) || (negb (IsVariadic v) && negb (len =? NumIn v))
      then Some ((None, Some (errors_New "function arguments mismatch")), s, [])
      else
        match decode_params v (IsVariadic v) (NumIn v) 0 (Params d) [] with
        | None => None
        | Some (inr err) => Some ((None, Some err), s, [])
        | Some (inl args) =>
          Some (results (Call v args (host s)).1,
                with_host (Call v args (host s)).2 s,
                [EvCall (Method d) args])
        end
    end.
Proof.
  destruct s as [[hw mt mx mn mu b q] h x]; simpl; intros ->.
  unfold callbinding, bind, Lock, Unlock, get_wv; simpl.
  destruct (b !! Method d) as [v|]; [|reflexivity].
  destruct (_ || _); [reflexivity|].
  destruct (decode_params _ _ _ _ _ _) as [[args|err]|]; try reflexivity.
  unfold get, put, emit, ret; simpl.
  destruct (Call v args h) as [res h']; reflexivity.
Qed.

(** [callbinding] leaves the WebView and the window as they are. *)
Lemma callbinding_frame d s r s' ev :
  m (wv s) = false ->
  callbinding d s = Some (r, s', ev) ->
  wv s' = wv s /\ win s' = win s.
Proof.
  intros Hm. rewrite callbinding_eq by assumption.
  destruct (bindings (wv s) !! Method d) as [v|]; simpl.
  - destruct (_ || _); [intros [= <- <- <-]; auto|].
    destruct (decode_params _ _ _ _ _ _) as [[args|err]|];
      [| |discriminate]; intros [= <- <- <-]; auto.
  - intros [= <- <- <-]; auto.
Qed.

(** [msgcb] on a decoded request: the Outcome of [callbinding], then one
    [Dispatch] of the closure that evaluates [response]. *)
Lemma msgcb_eq msg d s r s1 ev :
  json_Unmarshal_rpcMessage msg = inl d ->
  m (wv s) = false ->
  callbinding d s = Some (r, s1, ev) ->
  msgcb msg s =
    Some (tt,
          with_wv (with_dispatchq (dispatchq (wv s1) ++ [[CallEval (response (Itoa (ID d)) r)]]) (wv s1)) s1,
          ev ++ [EvPostThreadMessage (mainthread (wv s1)) WMApp]).
Proof.
  intros Hd Hm Hc.
  assert (Hm1 : m (wv s1) = false).
  { destruct (callbinding_frame _ _ _ _ _ Hm Hc) as [-> _]; assumption. }
  unfold msgcb; rewrite Hd. unfold bind at 1; rewrite Hc.
  destruct r as [res [err|]]; simpl.
  - rewrite Dispatch_free by assumption; reflexivity.
  - destruct (json_Marshal res) as [b|err];
      rewrite Dispatch_free by assumption; reflexivity.
Qed.

(** ** Requests that cannot be read *)

(** C8: a message that does not parse as the request envelope is logged and
    dropped: [msgcb] returns with the state (binding table, dispatch queue,
    host) as it was, its only call to the outside is the log line, so that no
    handler is invoked and nothing is dispatched; a message that follows is
    handled as if the bad one had not come. *)
Theorem msgcb_malformed_dropped (msg : string) (err : GoValue) s :
  json_Unmarshal_rpcMessage msg = inr err ->
  msgcb msg s = Some (tt, s, [EvLog ("invalid RPC message: " +:+ Error_text err)]) /\
  forall msg2 : string,
    (msgcb msg ;;; msgcb msg2) s =
      match msgcb msg2 s with
      | Some (u, s2, ev) => Some (u, s2, EvLog ("invalid RPC message: " +:+ Error_text err) :: ev)
      | None => None
      end.
Proof.
  intros Herr.
  assert (H1 : msgcb msg s = Some (tt, s, [EvLog ("invalid RPC message: " +:+ Error_text err)])).
  { unfold msgcb; rewrite Herr; reflexivity. }
  split; [exact H1|].
  intros msg2. unfold bind. rewrite H1.
  destruct (msgcb msg2 s) as [[[u s2] ev]|]; reflexivity.
Qed.

(** ** The response to a decoded request *)



(** C1, as the code has it: for a decoded request whose method is not in the
    binding table the Outcome is Void ([callbinding] returns nil and nil, calls
    nothing and changes nothing), and [msgcb] dispatches for it the response
    of Void: the statement that resolves [window._rpc[id]] with [null]. *)
Theorem unknown_method_resolves_null (msg : string) d s :
  json_Unmarshal_rpcMessage msg = inl d ->
  m (wv s) = false ->
  bindings (wv s) !! Method d = None ->
  callbinding d s = Some (Void, s, []) /\
  msgcb msg s =
    Some (tt,
          with_wv (with_dispatchq
                     (dispatchq (wv s) ++ [[CallEval (resolve_script (Itoa (ID d)) "null")]])
                     (wv s)) s,
          [EvPostThreadMessage (mainthread (wv s)) WMApp]).
Proof.
  intros Hd Hm Hb.
  assert (Hc : callbinding d s = Some (Void, s, [])).
  { rewrite callbinding_eq by assumption. rewrite Hb. reflexivity. }
  split; [exact Hc|].
  rewrite (msgcb_eq _ _ _ _ _ _ Hd Hm Hc).
  unfold response, Void. rewrite json_Marshal_nil. reflexivity.
Qed.

(** ** The arity check *)

Lemma arity_check_true f (n : Z) :
  (IsVariadic f && (n <? NumIn f - 1)) || (negb (IsVariadic f) && negb (n =? NumIn f)) = true
  <-> arity_mismatch f n.
Proof.
  unfold arity_mismatch.
  destruct (IsVariadic f); simpl.
  - rewrite orb_false_r, Z.ltb_lt. split; [auto|]. intros [[? _]|[_ ?]]; [discriminate|assumption].
  - rewrite negb_true_iff, Z.eqb_neq. split; [auto|]. intros [[_ ?]|[? _]]; [assumption|discriminate].
Qed.

Lemma arity_check_false f (n : Z) :
  (IsVariadic f && (n <? NumIn f - 1)) || (negb (IsVariadic f) && negb (n =? NumIn f)) = false
  <-> ~ arity_mismatch f n.
Proof.
  rewrite <- arity_check_true. destruct (_ || _); split; intros H; congruence.
Qed.




(** ** Decoding the parameters *)

Lemma In_in_range f (i : Z) : 0 <= i < NumIn f -> In_ f i <> None.
Proof.
  unfold In_, NumIn. intros [H0 H1].
  destruct (i <? 0) eqn:E; [apply Z.ltb_lt in E; lia|].
  intros Hn. apply nth_error_None in Hn. lia.
Qed.

(** Once the arity check has passed and one position has a type, every
    position has: [In] does not panic in the loop. *)
Lemma param_type_defined f (n i k : Z) (t : GoType) :
  ~ arity_mismatch f n ->
  0 <= i < n -> param_type f i = Some t ->
  0 <= k < n -> param_type f k <> None.
Proof.
  unfold arity_mismatch, param_type. intros Ha Hi Ht Hk.
  destruct (IsVariadic f); simpl in *.
  - assert (Hn : ~ n < NumIn f - 1) by tauto.
    assert (Hpos : 0 < NumIn f).
    { destruct (Z_lt_le_dec 0 (NumIn f)) as [|Hle]; [assumption|exfalso].
      assert (E : (NumIn f - 1 <=? i) = true) by (apply Z.leb_le; lia).
      rewrite E in Ht. unfold In_ in Ht.
      assert (E2 : (NumIn f - 1 <? 0) = true) by (apply Z.ltb_lt; lia).
      rewrite E2 in Ht. discriminate. }
    destruct (NumIn f - 1 <=? k) eqn:E.
    + pose proof (In_in_range f (NumIn f - 1) ltac:(lia)) as H.
      destruct (In_ f (NumIn f - 1)); [discriminate|congruence].
    + apply Z.leb_gt in E. apply In_in_range. lia.
  - assert (Hn : n = NumIn f) by (destruct (Z.eq_dec n (NumIn f)); tauto).
    apply In_in_range. lia.
Qed.

Lemma decode_params_first_failure f (ps : list RawMessage) :
  forall (i0 : Z) (args : list Value) (i : nat) (raw : RawMessage) (t : GoType) (err : GoValue),
    (forall k : nat, (k < length ps)%nat -> param_type f (i0 + Z.of_nat k) <> None) ->
    ps !! i = Some raw ->
    param_type f (i0 + Z.of_nat i) = Some t ->
    json_Unmarshal raw t = inr err ->
    exists (j : nat) (raw' : RawMessage) (t' : GoType) (err' : GoValue),
      (j <= i)%nat /\ ps !! j = Some raw' /\ param_type f (i0 + Z.of_nat j) = Some t' /\
      json_Unmarshal raw' t' = inr err' /\
      (forall (k : nat) (rawk : RawMessage) (tk : GoType),
         (k < j)%nat -> ps !! k = Some rawk -> param_type f (i0 + Z.of_nat k) = Some tk ->
         exists c, json_Unmarshal rawk tk = inl c) /\
      decode_params f (IsVariadic f) (NumIn f) i0 ps args = Some (inr (go_error err')).
Proof.
  induction ps as [|p ps IH]; intros i0 args i raw t err Hdef Hi Ht Herr; [discriminate|].
  simpl. fold (param_type f i0).
  pose proof (Hdef 0%nat ltac:(simpl; lia)) as H0. rewrite Z.add_0_r in H0.
  destruct (param_type f i0) as [t0|] eqn:Et0; [clear H0|congruence].
  destruct (json_Unmarshal p t0) as [c|e0] eqn:E0.
  - destruct i as [|i].
    { simpl in Hi. injection Hi as ->. rewrite Z.add_0_r in Ht. congruence. }
    simpl in Hi.
    destruct (IH (i0 + 1) (args ++ [mkValue t0 c]) i raw t err) as (j & raw' & t' & err' & Hj & Hl & Hty & Hu & Hbefore & Hdec); auto.
    + intros k Hk. replace (i0 + 1 + Z.of_nat k) with (i0 + Z.of_nat (S k)) by lia.
      apply Hdef. simpl; lia.
    + replace (i0 + 1 + Z.of_nat i) with (i0 + Z.of_nat (S i)) by lia. assumption.
    + exists (S j), raw', t', err'. repeat split; auto.
      * lia.
      * replace (i0 + Z.of_nat (S j)) with (i0 + 1 + Z.of_nat j) by lia. assumption.
      * intros [|k] rawk tk Hk Hlk Htk.
        -- simpl in Hlk. injection Hlk as <-. rewrite Z.add_0_r in Htk.
           assert (tk = t0) by congruence. subst. eauto.
        -- simpl in Hlk. apply (Hbefore k rawk tk); [lia|assumption|].
           replace (i0 + 1 + Z.of_nat k) with (i0 + Z.of_nat (S k)) by lia. assumption.
  - exists 0%nat, p, t0, e0. repeat split; auto.
    + lia.
    + rewrite Z.add_0_r. assumption.
    + intros k rawk tk Hk. lia.
Qed.

(** C4: for a bound handler and a request that passes the arity check, if
    decoding some parameter into the type of its position fails, [callbinding]
    returns at once the decode error of the first parameter that fails: the
    handler is not called (no call event) and the state is as it was. *)
Theorem decode_failure_aborts d s f (i : nat) (raw : RawMessage) (t : GoType) (err : GoValue) :
  m (wv s) = false ->
  bindings (wv s) !! Method d = Some f ->
  ~ arity_mismatch f (Z.of_nat (length (Params d))) ->
  Params d !! i = Some raw ->
  param_type f (Z.of_nat i) = Some t ->
  json_Unmarshal raw t = inr err ->
  exists (j : nat) (raw' : RawMessage) (t' : GoType) (err' : GoValue),
    (j <= i)%nat /\ Params d !! j = Some raw' /\ param_type f (Z.of_nat j) = Some t' /\
    json_Unmarshal raw' t' = inr err' /\
    (forall (k : nat) (rawk : RawMessage) (tk : GoType),
       (k < j)%nat -> Params d !! k = Some rawk -> param_type f (Z.of_nat k) = Some tk ->
       exists c, json_Unmarshal rawk tk = inl c) /\
    callbinding d s = Some ((None, Some (go_error err')), s, []).
Proof.
  intros Hm Hb Ha Hi Ht Herr.
  pose proof (lookup_lt_Some _ _ _ Hi) as Hlen.
  destruct (decode_params_first_failure f (Params d) 0 [] i raw t err)
    as (j & raw' & t' & err' & Hj & Hl & Hty & Hu & Hbefore & Hdec); auto.
  - intros k Hk. simpl.
    apply (param_type_defined f (Z.of_nat (length (Params d))) (Z.of_nat i) (Z.of_nat k) t);
      auto; lia.
  - exists j, raw', t', err'. repeat split; auto.
    rewrite callbinding_eq by assumption. rewrite Hb; simpl.
    apply arity_check_false in Ha. rewrite Ha, Hdec. reflexivity.
Qed.

(** ** The return values *)


(** ** [Bind] *)

(** C9, as the code has it: [Bind] accepts every function with at most two
    return values, whatever the type of the second: it returns nil, registers
    the binding and injects the script; a second return value of a type that
    does not implement error is reported when the function is called:
    [callbinding] calls it and returns the error
    [second return value must be an error].  What [Bind] refuses, returning an
    error with no script injected and no binding registered, is a value that
    is not a function and a function with more than two return values. *)
Theorem bind_checks_the_count_only (name : string) s :
  m (wv s) = false ->
  (forall f, NumOut f <= 2 ->
     Bind name (AnyFunc f) s =
       Some (None,
             with_wv (with_bindings (<[name := f]> (bindings (wv s))) (wv s)) s,
             [EvBrowserInit ("(function() { var name = " +:+ jsString (Some (String_value name))
                             +:+ ";" +:+ bind_script)])) /\
  (forall d f (args : list Value) (v1 v2 : Value) (h : Host),
     bindings (wv s) !! Method d = Some f ->
     ~ arity_mismatch f (Z.of_nat (length (Params d))) ->
     decode_params f (IsVariadic f) (NumIn f) 0 (Params d) [] = Some (inl args) ->
     Call f args (host s) = ([v1; v2], h) ->
     Implements_error (Type_ v2) = false ->
     callbinding d s =
       Some ((None, Some (errors_New "second return value must be an error")),
             with_host h s, [EvCall (Method d) args])) /\
  (forall v : option GoValue,
     Bind name (AnyOther v) s =
       Some (Some (errors_New "only functions can be bound"), s, [])) /\
  (forall f, 2 < NumOut f ->
     Bind name (AnyFunc f) s =
       Some (Some (errors_New "function may only return a value or a value+error"), s, [])).
Proof.
  intros Hm. repeat split.
  - intros f Hn. unfold Bind.
    destruct (NumOut f >? 2) eqn:E; [rewrite Z.gtb_gt in E; lia|].
    destruct s as [[] ? ?]; simpl in *; subst; reflexivity.
  - intros d f args v1 v2 h Hb Ha Hdec Hcall Hi.
    rewrite callbinding_eq by assumption. rewrite Hb; simpl.
    apply arity_check_false in Ha. rewrite Ha, Hdec, Hcall; simpl. rewrite Hi. reflexivity.
  - intros f Hn. unfold Bind.
    destruct (NumOut f >? 2) eqn:E; [reflexivity|].
    rewrite Z.gtb_ltb, Z.ltb_ge in E. lia.
Qed.

(** ** [SetSize] *)

(** C10: [SetSize] returns, and of the WebView it changes [maxsz] alone
    under [HintMax] and [minsz] alone under [HintMin], to the width and height
    as [int32]; under [HintNone], [HintFixed] and [HintCenter] the WebView,
    [maxsz] and [minsz] included, is as it was. *)
Theorem SetSize_frame (width height : Z) s :
  (exists s' ev, SetSize width height HintMax s = Some (tt, s', ev) /\
     wv s' = with_maxsz (mkPoint (int32 width) (int32 height)) (wv s) /\
     minsz (wv s') = minsz (wv s)) /\
  (exists s' ev, SetSize width height HintMin s = Some (tt, s', ev) /\
     wv s' = with_minsz (mkPoint (int32 width) (int32 height)) (wv s) /\
     maxsz (wv s') = maxsz (wv s)) /\
  (exists s' ev, SetSize width height HintNone s = Some (tt, s', ev) /\ wv s' = wv s) /\
  (exists s' ev, SetSize width height HintFixed s = Some (tt, s', ev) /\ wv s' = wv s) /\
  (exists s' ev, SetSize width height HintCenter s = Some (tt, s', ev) /\ wv s' = wv s).
Proof.
  destruct s as [[hw mt mx mn mu b q] h [st sc [rc|]]];
    repeat split; eexists _, _; unfold SetSize, bind, get, put, get_wv, put_wv, emit, ret;
    simpl; repeat split; reflexivity.
Qed.

(** ** The drain pass *)















End Properties.

(** * More of the code *)

Section MoreProperties.
Context {P : Platform} {U : User32}.

Implicit Types (s : St) (w : WebView) (d : rpcMessage) (f : Func).

(** ** The queue *)

Lemma with_dispatchq_same s :
  with_wv (with_dispatchq (dispatchq (wv s)) (wv s)) s = s.
Proof. destruct s as [[] ? ?]; reflexivity. Qed.

(** X1: on a free mutex, successive [Dispatch] calls append their closures
    to the queue in call order, post one wake-up message each to the thread
    of the loop, and change nothing else. *)
Theorem dispatch_all_appends (fs : list Task) s :
  m (wv s) = false ->
  dispatch_all fs s =
    Some (tt, with_wv (with_dispatchq (dispatchq (wv s) ++ fs) (wv s)) s,
          map (fun _ => EvPostThreadMessage (mainthread (wv s)) WMApp) fs).
Proof.
  revert s; induction fs as [|t fs IH]; intros s Hm; simpl.
  - rewrite app_nil_r, with_dispatchq_same. reflexivity.
  - unfold bind. rewrite Dispatch_free by assumption.
    rewrite IH by (destruct s as [[] ? ?]; assumption).
    destruct s as [[] ? ?]; simpl. rewrite <- app_assoc. reflexivity.
Qed.

(** What one call [v()] does, on a free mutex. *)
Lemma call_eq (v : Task) s :
  m (wv s) = false ->
  call v s =
    Some (tt,
          with_host (host_after v (host s))
            (with_wv (with_dispatchq (dispatchq (wv s) ++ dispatched_by v) (wv s)) s),
          calls_of (mainthread (wv s)) v).
Proof.
  revert s; induction v as [|a v IH]; intros s Hm.
  - destruct s as [[] ? ?]; simpl. rewrite app_nil_r. reflexivity.
  - simpl. unfold bind.
    destruct a as [js|body|k]; simpl.
    + rewrite IH by assumption. reflexivity.
    + rewrite Dispatch_free by assumption.
      rewrite IH by (destruct s as [[] ? ?]; assumption).
      destruct s as [[] ? ?]; simpl. rewrite <- app_assoc. reflexivity.
    + rewrite IH by assumption. destruct s as [[] ? ?]; reflexivity.
Qed.

Lemma range_call_eq (q : list Task) s :
  m (wv s) = false ->
  range_call q s =
    Some (tt,
          with_host (fold_left (fun h v => host_after v h) q (host s))
            (with_wv (with_dispatchq (dispatchq (wv s) ++ flat_map dispatched_by q) (wv s)) s),
          flat_map (calls_of (mainthread (wv s))) q).
Proof.
  revert s; induction q as [|v q IH]; intros s Hm.
  - destruct s as [[] ? ?]; simpl. rewrite app_nil_r. reflexivity.
  - simpl. unfold bind. rewrite call_eq by assumption.
    rewrite IH by (destruct s as [[] ? ?]; assumption).
    destruct s as [[] ? ?]; simpl. rewrite <- app_assoc. reflexivity.
Qed.

Lemma drain_eq s :
  m (wv s) = false ->
  drain s =
    Some (tt,
          with_host (fold_left (fun h v => host_after v h) (dispatchq (wv s)) (host s))
            (with_wv (with_dispatchq (flat_map dispatched_by (dispatchq (wv s))) (wv s)) s),
          flat_map (calls_of (mainthread (wv s))) (dispatchq (wv s))).
Proof.
  intros Hm. unfold drain, bind. rewrite Lock_free by assumption.
  destruct s as [[hw mt mx mn mu b q] h x]; simpl in *; subst mu.
  unfold Unlock; simpl.
  rewrite range_call_eq by reflexivity. reflexivity.
Qed.


(** X3: when no closure of the queue dispatches, a second drain pass right
    after the first finds nothing to run: no closure is called twice. *)
Theorem drain_twice s :
  m (wv s) = false ->
  flat_map dispatched_by (dispatchq (wv s)) = [] ->
  (drain ;;; drain) s = drain s.
Proof.
  intros Hm Hq. unfold bind. rewrite drain_eq by assumption. rewrite Hq.
  rewrite drain_eq by (destruct s as [[] ? ?]; assumption).
  destruct s as [[] ? ?]; simpl. rewrite app_nil_r. reflexivity.
Qed.

(** ** The loop *)

(** X4: [Run] returns at the quit message: no message after it is handled,
    and closures still queued then are not run. *)
Theorem Run_stops_at_quit (pre rest : list Z) s :
  WMQuit <> WMApp ->
  Run (pre ++ WMQuit :: rest) s = Run pre s.
Proof.
  intros Hne. revert s; induction pre as [|x pre IH]; intros s; simpl.
  - destruct (WMQuit =? WMApp) eqn:E; [apply Z.eqb_eq in E; contradiction|].
    rewrite Z.eqb_refl. reflexivity.
  - destruct (x =? WMApp).
    + unfold bind. destruct (drain s) as [[[u s1] ev]|]; [|reflexivity].
      simpl. rewrite IH. reflexivity.
    + destruct (x =? WMQuit); [reflexivity|].
      unfold bind; simpl. rewrite IH. reflexivity.
Qed.

(** X5: messages that are neither the wake-up nor the quit message are
    translated and dispatched to the window in order; the loop touches no
    state for them, so that queued closures wait for a wake-up. *)
Theorem Run_without_wake (msgs : list Z) s :
  Forall (fun x => x <> WMApp /\ x <> WMQuit) msgs ->
  Run msgs s =
    Some (tt, s, flat_map (fun x => [EvTranslateMessage x; EvDispatchMessage x]) msgs).
Proof.
  induction 1 as [|x msgs [Ha Hq] _ IH]; simpl; [reflexivity|].
  destruct (x =? WMApp) eqn:E1; [apply Z.eqb_eq in E1; contradiction|].
  destruct (x =? WMQuit) eqn:E2; [apply Z.eqb_eq in E2; contradiction|].
  unfold bind; simpl. rewrite IH. reflexivity.
Qed.


(** ** Requests *)





(** ** The call *)




Lemma nth_error_is_lookup {A} (l : list A) (i : nat) : nth_error l i = l !! i.
Proof.
  revert i; induction l as [|x l IH]; intros [|i]; simpl; try reflexivity. apply IH.
Qed.

Lemma decode_params_args f (ps : list RawMessage) :
  forall (i0 : Z) (acc args : list Value),
    decode_params f (IsVariadic f) (NumIn f) i0 ps acc = Some (inl args) ->
    exists rest,
      args = acc ++ rest /\ length rest = length ps /\
      forall (i : nat) (raw : RawMessage),
        ps !! i = Some raw ->
        exists t c,
          param_type f (i0 + Z.of_nat i) = Some t /\ json_Unmarshal raw t = inl c /\
          rest !! i = Some (mkValue t c).
Proof.
  induction ps as [|p ps IH]; intros i0 acc args; simpl.
  - intros [= <-]. exists []. rewrite app_nil_r. repeat split; auto. intros i raw H; discriminate.
  - fold (param_type f i0).
    destruct (param_type f i0) as [t0|] eqn:Et; [|discriminate].
    destruct (json_Unmarshal p t0) as [c|e0] eqn:Eu; [|discriminate].
    intros H. destruct (IH _ _ _ H) as (rest & -> & Hlen & Hall).
    exists (mkValue t0 c :: rest). rewrite <- app_assoc. repeat split; auto.
    + simpl; congruence.
    + intros [|i] raw Hi; simpl in Hi.
      * injection Hi as <-. exists t0, c. rewrite Z.add_0_r. auto.
      * destruct (Hall i raw Hi) as (t & c' & Ht & Hu & Hr).
        exists t, c'. repeat split; auto.
        replace (i0 + Z.of_nat (S i)) with (i0 + 1 + Z.of_nat i) by lia. assumption.
Qed.

(** X10: when [callbinding] calls the handler, it passes one argument for
    each parameter of the request, in order, each decoded from its parameter
    into the type of its position (the element type of the variadic slice for
    the trailing ones); a function that is not variadic gets arguments of
    exactly its declared types. *)
Theorem call_arguments d s f r s' (ev : list Event) (name : string) (args : list Value) :
  m (wv s) = false ->
  bindings (wv s) !! Method d = Some f ->
  callbinding d s = Some (r, s', ev) ->
  In (EvCall name args) ev ->
  name = Method d /\ ev = [EvCall name args] /\
  length args = length (Params d) /\
  (forall (i : nat) (raw : RawMessage),
     Params d !! i = Some raw ->
     exists t c,
       param_type f (Z.of_nat i) = Some t /\ json_Unmarshal raw t = inl c /\
       args !! i = Some (mkValue t c)) /\
  (IsVariadic f = false -> map Type_ args = ins f).
Proof.
  intros Hm Hb. rewrite callbinding_eq by assumption. rewrite Hb; simpl.
  destruct (_ || _) eqn:Ha; [intros [= <- <- <-] []|].
  destruct (decode_params _ _ _ _ _ _) as [[args'|e]|] eqn:Hdec;
    [|intros [= <- <- <-] []|discriminate].
  intros [= <- <- <-] [[= <- <-]|[]].
  destruct (decode_params_args _ _ _ _ _ Hdec) as (rest & Hargs & Hlen & Hall).
  simpl in Hargs; subst rest.
  repeat split; auto.
  intros Hv. apply arity_check_false in Ha.
  assert (Hn : Z.of_nat (length (Params d)) = NumIn f).
  { unfold arity_mismatch in Ha. destruct (Z.eq_dec (Z.of_nat (length (Params d))) (NumIn f)); tauto. }
  unfold NumIn in Hn. apply Nat2Z.inj in Hn.
  apply list_eq. intros i. rewrite list_lookup_fmap.
  destruct (Params d !! i) as [raw|] eqn:Hi.
  - destruct (Hall i raw Hi) as (t & c & Ht & _ & ->). simpl.
    rewrite Z.add_0_l in Ht. unfold param_type in Ht. rewrite Hv in Ht. simpl in Ht.
    unfold In_ in Ht.
    replace (Z.of_nat i <? 0) with false in Ht by (symmetry; apply Z.ltb_ge; lia).
    rewrite Nat2Z.id in Ht. rewrite <- Ht. apply nth_error_is_lookup.
  - apply lookup_ge_None in Hi.
    rewrite (proj2 (lookup_ge_None args' i)) by lia.
    symmetry. apply lookup_ge_None. lia.
Qed.


(** ** [Bind] and the binding table *)

Lemma Bind_eq (name : string) f s :
  m (wv s) = false ->
  NumOut f <= 2 ->
  Bind name (AnyFunc f) s =
    Some (None,
          with_wv (with_bindings (<[name := f]> (bindings (wv s))) (wv s)) s,
          [EvBrowserInit ("(function() { var name = " +:+ jsString (Some (String_value name))
                          +:+ ";" +:+ bind_script)]).
Proof.
  intros Hm Hn. unfold Bind.
  destruct (NumOut f >? 2) eqn:E; [rewrite Z.gtb_gt in E; lia|].
  destruct s as [[] ? ?]; simpl in *; subst; reflexivity.
Qed.

(** X11: binding a name again replaces its handler, the last one bound
    being the one in the table; the bindings of other names, the queue and the
    rest of the WebView stay, and the script for the name is injected once per
    call of [Bind]. *)
Theorem Bind_last_wins (name : string) f (g : Func) s :
  m (wv s) = false ->
  NumOut f <= 2 -> NumOut g <= 2 ->
  exists s',
    (Bind name (AnyFunc f) ;;; Bind name (AnyFunc g)) s =
      Some (None, s',
            [EvBrowserInit ("(function() { var name = " +:+ jsString (Some (String_value name))
                            +:+ ";" +:+ bind_script);
             EvBrowserInit ("(function() { var name = " +:+ jsString (Some (String_value name))
                            +:+ ";" +:+ bind_script)]) /\
    bindings (wv s') !! name = Some g /\
    (forall other : string, other <> name ->
       bindings (wv s') !! other = bindings (wv s) !! other) /\
    wv s' = with_bindings (bindings (wv s')) (wv s) /\
    host s' = host s /\ win s' = win s.
Proof.
  intros Hm Hf Hg. eexists. split.
  - unfold bind. rewrite Bind_eq by assumption.
    rewrite Bind_eq by (try assumption; destruct s as [[] ? ?]; assumption).
    reflexivity.
  - destruct s as [[] ? ?]; simpl. repeat split.
    + apply lookup_insert_eq.
    + intros other Hne. rewrite !lookup_insert_ne by congruence. reflexivity.
Qed.

(** X12: after [Bind] of a function under a name, a request for that name
    calls that function, whatever was bound under the name before. *)
Theorem Bind_then_callbinding (name : string) f d s (args : list Value) :
  m (wv s) = false ->
  NumOut f <= 2 ->
  Method d = name ->
  ~ arity_mismatch f (Z.of_nat (length (Params d))) ->
  decode_params f (IsVariadic f) (NumIn f) 0 (Params d) [] = Some (inl args) ->
  (Bind name (AnyFunc f) ;;; callbinding d) s =
    Some (results (Call f args (host s)).1,
          with_host (Call f args (host s)).2
            (with_wv (with_bindings (<[name := f]> (bindings (wv s))) (wv s)) s),
          [EvBrowserInit ("(function() { var name = " +:+ jsString (Some (String_value name))
                          +:+ ";" +:+ bind_script);
           EvCall name args]).
Proof.
  intros Hm Hn <- Ha Hdec. unfold bind. rewrite Bind_eq by assumption.
  rewrite callbinding_eq by (destruct s as [[] ? ?]; assumption).
  apply arity_check_false in Ha.
  destruct s as [[hw mt mx mn mu b q] h x]; simpl in *.
  rewrite lookup_insert_eq; simpl. rewrite Ha, Hdec. reflexivity.
Qed.

(** ** [SetSize] and the window *)

Lemma SetSize_eq (width height : Z) (hints : Hint) s :
  SetSize width height hints s =
    let style1 :=
      if hints =? HintFixed
      then Z.ldiff (style (win s)) (Z.lor WSThickFrame WSMaximizeBox)
      else Z.lor (style (win s)) (Z.lor WSThickFrame WSMaximizeBox) in
    let s1 := with_win (mkWindow style1 (screen (win s)) (windowRect (win s))) s in
    let e1 := EvSetWindowLongPtr (HWND (wv s)) (uintptr GWLStyle) style1 in
    if hints =? HintMax then
      Some (tt, with_wv (with_maxsz (mkPoint (int32 width) (int32 height)) (wv s)) s1, [e1])
    else if hints =? HintMin then
      Some (tt, with_wv (with_minsz (mkPoint (int32 width) (int32 height)) (wv s)) s1, [e1])
    else if hints =? HintCenter then
      match windowRect (win s) with
      | None => Some (tt, s1, [e1])
      | Some _ =>
        Some (tt, s1,
              [e1;
               EvMoveWindow (HWND (wv s))
                 (uintptr (int32 ((int_ (fst (screen (win s))) - width) ÷ 2)))
                 (uintptr (int32 ((int_ (snd (screen (win s))) - height) ÷ 2)))
                 (uintptr width) (uintptr height);
               EvBrowserResize])
      end
    else
      let r := User32AdjustWindowRect (mkRect 0 0 (int32 width) (int32 height))
                 WSOverlappedWindow in
      Some (tt, s1,
            [e1;
             EvSetWindowPos (HWND (wv s)) (uintptr (Left r)) (uintptr (Top r))
               (uintptr (int32 (Right r - Left r))) (uintptr (int32 (Bottom r - Top r)))
               (Z.lor (Z.lor (Z.lor SWPNoZOrder SWPNoActivate) SWPNoMove) SWPFrameChanged);
             EvBrowserResize]).
Proof.
  destruct s as [[hw mt mx mn mu b q] h [st sc rc]].
  unfold SetSize, bind, get, put, get_wv, put_wv, emit, ret; simpl.
  destruct (hints =? HintMax); [reflexivity|].
  destruct (hints =? HintMin); [reflexivity|].
  destruct (hints =? HintCenter); [destruct rc|]; reflexivity.
Qed.

(** X13: [SetSize] always returns, and its first call hands the new style
    to [SetWindowLongPtrW]: the style read, with the bits of [WSThickFrame]
    and [WSMaximizeBox] cleared under [HintFixed] and set under every other
    hint, and every other bit as it was. *)
Theorem SetSize_style (width height : Z) (hints : Hint) s :
  exists s' ev,
    SetSize width height hints s = Some (tt, s', ev) /\
    head ev = Some (EvSetWindowLongPtr (HWND (wv s)) (uintptr GWLStyle) (style (win s'))) /\
    forall n : Z,
      Z.testbit (style (win s')) n =
        if Z.testbit (Z.lor WSThickFrame WSMaximizeBox) n
        then negb (hints =? HintFixed)
        else Z.testbit (style (win s)) n.
Proof.
  assert (Hbits : forall n : Z,
            Z.testbit (if hints =? HintFixed
                       then Z.ldiff (style (win s)) (Z.lor WSThickFrame WSMaximizeBox)
                       else Z.lor (style (win s)) (Z.lor WSThickFrame WSMaximizeBox)) n =
              if Z.testbit (Z.lor WSThickFrame WSMaximizeBox) n
              then negb (hints =? HintFixed)
              else Z.testbit (style (win s)) n).
  { intros n. destruct (hints =? HintFixed); simpl.
    - rewrite Z.ldiff_spec. destruct (Z.testbit (Z.lor _ _) n); simpl.
      + apply andb_false_r.
      + apply andb_true_r.
    - rewrite Z.lor_spec. destruct (Z.testbit (Z.lor WSThickFrame WSMaximizeBox) n); simpl.
      + apply orb_true_r.
      + apply orb_false_r. }
  rewrite SetSize_eq; simpl.
  destruct (hints =? HintMax);
    [eexists _, _; split; [reflexivity|split; [reflexivity|exact Hbits]]|].
  destruct (hints =? HintMin);
    [eexists _, _; split; [reflexivity|split; [reflexivity|exact Hbits]]|].
  destruct (hints =? HintCenter); [destruct (windowRect (win s))|];
    eexists _, _; (split; [reflexivity|split; [reflexivity|exact Hbits]]).
Qed.

Lemma int32_small (z : Z) : - 2147483648 <= z < 2147483648 -> int32 z = z.
Proof.
  intros H. unfold int32, wrap_signed.
  change (2 ^ (32 - 1)) with 2147483648. change (2 ^ 32) with 4294967296.
  rewrite Z.mod_small by lia. lia.
Qed.

Lemma int_small (z : Z) : 0 <= z < 2147483648 -> int_ z = z.
Proof.
  intros H. unfold int_, wrap_signed.
  change (2 ^ (64 - 1)) with 9223372036854775808.
  change (2 ^ 64) with 18446744073709551616.
  rewrite Z.mod_small by lia. lia.
Qed.

Lemma uintptr_small (z : Z) : 0 <= z < 2147483648 -> uintptr z = z.
Proof.
  intros H. unfold uintptr. change (2 ^ 64) with 18446744073709551616.
  apply Z.mod_small. lia.
Qed.

(** X14: [SetSize] with [HintCenter].  When [GetWindowRect] fails, only the
    style is set: the window is not moved and the browser not resized.  When
    it succeeds and the size fits the screen, the window is moved, with the
    size asked for, to the middle of the screen (to the pixel, rounding
    down), and then the browser is resized. *)
Theorem SetSize_center (width height : Z) s :
  (windowRect (win s) = None ->
   exists s' style',
     SetSize width height HintCenter s =
       Some (tt, s', [EvSetWindowLongPtr (HWND (wv s)) (uintptr GWLStyle) style'])) /\
  (forall rect (scrWidth scrHeight : Z),
     windowRect (win s) = Some rect ->
     screen (win s) = (scrWidth, scrHeight) ->
     0 <= width <= scrWidth -> scrWidth < 2147483648 ->
     0 <= height <= scrHeight -> scrHeight < 2147483648 ->
     exists s' (style' left top : Z),
       SetSize width height HintCenter s =
         Some (tt, s',
               [EvSetWindowLongPtr (HWND (wv s)) (uintptr GWLStyle) style';
                EvMoveWindow (HWND (wv s)) left top width height;
                EvBrowserResize]) /\
       0 <= left /\ 2 * left <= scrWidth - width <= 2 * left + 1 /\
       0 <= top /\ 2 * top <= scrHeight - height <= 2 * top + 1).
Proof.
  split.
  - intros Hr. rewrite SetSize_eq; simpl. rewrite Hr. eexists _, _; reflexivity.
  - intros rect scrWidth scrHeight Hr Hs Hw Hsw Hh Hsh.
    rewrite SetSize_eq; simpl. rewrite Hr, Hs; simpl.
    rewrite !int_small by lia.
    rewrite !Z.quot_div_nonneg by lia.
    pose proof (Z.div_mod (scrWidth - width) 2 ltac:(lia)) as Hdw.
    pose proof (Z.mod_pos_bound (scrWidth - width) 2 ltac:(lia)) as Hmw.
    pose proof (Z.div_mod (scrHeight - height) 2 ltac:(lia)) as Hdh.
    pose proof (Z.mod_pos_bound (scrHeight - height) 2 ltac:(lia)) as Hmh.
    assert (H1 : 0 <= (scrWidth - width) / 2) by (apply Z.div_pos; lia).
    assert (H2 : 0 <= (scrHeight - height) / 2) by (apply Z.div_pos; lia).
    rewrite !int32_small by lia.
    rewrite (uintptr_small ((scrWidth - width) / 2)),
            (uintptr_small ((scrHeight - height) / 2)),
            (uintptr_small width), (uintptr_small height) by lia.
    eexists _, _, _, _. split; [reflexivity|]. lia.
Qed.

(** X15: a hint that is none of the five constants is handled as
    [HintNone]. *)
Theorem SetSize_unknown_hint (width height : Z) (hints : Hint) s :
  hints <> HintFixed -> hints <> HintMin -> hints <> HintMax -> hints <> HintCenter ->
  SetSize width height hints s = SetSize width height HintNone s.
Proof.
  intros H1 H2 H3 H4. rewrite !SetSize_eq.
  apply Z.eqb_neq in H1, H2, H3, H4. rewrite H1, H2, H3, H4. reflexivity.
Qed.


(** ** The window contexts and the window procedure *)

(** X16: a context stored for a window is the one read back for it, the
    contexts of other windows are untouched, a window with no context reads
    as nil, and both functions leave the lock free. *)
Theorem windowContext_round_trip (wnd : Z) (data : Data) (r : Registry) :
  writer r = false -> readers r = 0%nat ->
  exists r',
    setWindowContext wnd data r = Some r' /\
    writer r' = false /\ readers r' = 0%nat /\
    getWindowContext wnd r' = Some (data, r') /\
    (forall other : Z, other <> wnd ->
       getWindowContext other r' =
         Some (default DataNil (windowContext r !! other), r')) /\
    (forall other : Z, windowContext r !! other = None ->
       getWindowContext other r = Some (DataNil, r)).
Proof.
  intros Hw Hr. destruct r as [c w n]; simpl in *; subst.
  eexists. split; [reflexivity|]. unfold getWindowContext; simpl. repeat split.
  - rewrite lookup_insert_eq. reflexivity.
  - intros other Hne. rewrite lookup_insert_ne by congruence. reflexivity.
  - intros other ->. reflexivity.
Qed.

(** X17: [wndproc] after [SetSize]: once a maximum (a minimum) with both
    sides positive and in the range of [int32] is set, the answer to
    [WMGetMinMaxInfo] for the window of the WebView carries it as the maximum
    size and maximum track size (the minimum track size), leaves the other
    fields, and returns 0 with no further call. *)
Theorem SetSize_then_wndproc (r : Registry) s (hwnd wp lp : Z) (lpmmi : MinMaxInfo)
    (width height : Z) :
  writer r = false ->
  windowContext r !! hwnd = Some DataWebView ->
  WMGetMinMaxInfo <> WMSize -> WMGetMinMaxInfo <> WMClose -> WMGetMinMaxInfo <> WMDestroy ->
  0 < width < 2147483648 -> 0 < height < 2147483648 ->
  (exists s' ev lpmmi',
     SetSize width height HintMax s = Some (tt, s', ev) /\
     wndproc r s' hwnd WMGetMinMaxInfo wp lp lpmmi = Some (0, lpmmi', []) /\
     PtMaxSize lpmmi' = mkPoint width height /\
     PtMaxTrackSize lpmmi' = mkPoint width height /\
     PtReserved lpmmi' = PtReserved lpmmi /\ PtMaxPosition lpmmi' = PtMaxPosition lpmmi) /\
  (exists s' ev lpmmi',
     SetSize width height HintMin s = Some (tt, s', ev) /\
     wndproc r s' hwnd WMGetMinMaxInfo wp lp lpmmi = Some (0, lpmmi', []) /\
     PtMinTrackSize lpmmi' = mkPoint width height /\
     PtReserved lpmmi' = PtReserved lpmmi /\ PtMaxPosition lpmmi' = PtMaxPosition lpmmi).
Proof.
  intros Hw Hc H1 H2 H3 Hwd Hht.
  apply Z.eqb_neq in H1, H2, H3.
  assert (Hx : (width >? 0) = true) by (apply Z.gtb_lt; lia).
  assert (Hy : (height >? 0) = true) by (apply Z.gtb_lt; lia).
  destruct s as [[hw mt mx mn mu b q] h x].
  destruct ((X mn >? 0) && (Y mn >? 0)) eqn:Emn;
    destruct ((X mx >? 0) && (Y mx >? 0)) eqn:Emx;
    (split; rewrite SetSize_eq; simpl; rewrite !int32_small by lia;
     eexists _, _, _; (split; [reflexivity|]);
     unfold wndproc, getWindowContext; rewrite Hw; simpl; rewrite Hc; simpl;
     rewrite H1, H2, H3, Z.eqb_refl; simpl; rewrite Hx, Hy, ?Emn, ?Emx; simpl;
     (split; [reflexivity|repeat split])).
Qed.

(** X18: a bound of which one side is not positive as an [int32] is not a
    bound: after [SetSize] with [HintMax] and such a width or height (zero,
    negative, or wrapped around), the answer to [WMGetMinMaxInfo] leaves the
    maximum size and the maximum track size as the system gave them. *)
Theorem wndproc_ignores_a_non_positive_bound (r : Registry) s (hwnd wp lp : Z)
    (lpmmi : MinMaxInfo) (width height : Z) :
  writer r = false ->
  windowContext r !! hwnd = Some DataWebView ->
  WMGetMinMaxInfo <> WMSize -> WMGetMinMaxInfo <> WMClose -> WMGetMinMaxInfo <> WMDestroy ->
  int32 width <= 0 \/ int32 height <= 0 ->
  exists s' ev lpmmi',
    SetSize width height HintMax s = Some (tt, s', ev) /\
    wndproc r s' hwnd WMGetMinMaxInfo wp lp lpmmi = Some (0, lpmmi', []) /\
    PtMaxSize lpmmi' = PtMaxSize lpmmi /\
    PtMaxTrackSize lpmmi' = PtMaxTrackSize lpmmi.
Proof.
  intros Hw Hc H1 H2 H3 Hneg.
  apply Z.eqb_neq in H1, H2, H3.
  assert (Hxy : (int32 width >? 0) && (int32 height >? 0) = false).
  { apply andb_false_iff. destruct Hneg; [left|right]; rewrite Z.gtb_ltb; apply Z.ltb_ge; lia. }
  destruct s as [[hw mt mx mn mu b q] h x].
  rewrite SetSize_eq; simpl.
  eexists _, _, _; (split; [reflexivity|]).
  unfold wndproc, getWindowContext; rewrite Hw; simpl; rewrite Hc; simpl.
  rewrite H1, H2, H3, Z.eqb_refl; simpl; rewrite Hxy; simpl.
  split; [reflexivity|repeat split];
    destruct ((X mn >? 0) && (Y mn >? 0)); reflexivity.
Qed.

(** X19: [wndproc] hands a message to [DefWindowProcW], returning its
    result and touching nothing, when the window has no WebView as its context
    (none stored, nil, another value) and when the message is none of the
    four it handles; for these four and the window of the WebView it returns
    0 and does not call [DefWindowProcW]. *)
Theorem wndproc_default (r : Registry) s (hwnd msg wp lp : Z) (lpmmi : MinMaxInfo) :
  writer r = false ->
  (default DataNil (windowContext r !! hwnd) <> DataWebView ->
   wndproc r s hwnd msg wp lp lpmmi =
     Some (User32DefWindowProcW hwnd msg wp lp, lpmmi, [SysDefWindowProcW hwnd msg wp lp])) /\
  (msg <> WMSize -> msg <> WMClose -> msg <> WMDestroy -> msg <> WMGetMinMaxInfo ->
   wndproc r s hwnd msg wp lp lpmmi =
     Some (User32DefWindowProcW hwnd msg wp lp, lpmmi, [SysDefWindowProcW hwnd msg wp lp])) /\
  (windowContext r !! hwnd = Some DataWebView ->
   msg = WMSize \/ msg = WMClose \/ msg = WMDestroy \/ msg = WMGetMinMaxInfo ->
   exists lpmmi' calls,
     wndproc r s hwnd msg wp lp lpmmi = Some (0, lpmmi', calls) /\
     forall a b c e : Z, ~ In (SysDefWindowProcW a b c e) calls).
Proof.
  intros Hw. unfold wndproc, getWindowContext. rewrite Hw; simpl. repeat split.
  - intros Hd. destruct (default DataNil (windowContext r !! hwnd)); congruence.
  - intros H1 H2 H3 H4. apply Z.eqb_neq in H1, H2, H3, H4.
    rewrite H1, H2, H3, H4.
    destruct (default DataNil (windowContext r !! hwnd)); reflexivity.
  - intros Hc Hmsg. rewrite Hc; simpl.
    destruct (msg =? WMSize) eqn:E1.
    { eexists _, _; split; [reflexivity|]. intros a b c e [H|[]]; discriminate. }
    destruct (msg =? WMClose) eqn:E2.
    { eexists _, _; split; [reflexivity|]. intros a b c e [H|[]]; discriminate. }
    destruct (msg =? WMDestroy) eqn:E3.
    { eexists _, _; split; [reflexivity|]. intros a b c e [H|[]]; discriminate. }
    destruct (msg =? WMGetMinMaxInfo) eqn:E4.
    { eexists _, _; split; [reflexivity|]. intros a b c e []. }
    exfalso. apply Z.eqb_neq in E1, E2, E3, E4.
    destruct Hmsg as [H|[H|[H|H]]]; contradiction.
Qed.

(** ** The title *)

(** X20: [SetTitle] always reaches [SetWindowTextW], with a text that ends
    in NUL: the UTF-16 of the title when the title holds no NUL, and the
    text of the empty title when it holds one. *)
Theorem SetTitle_text (title : string) s :
  exists text : list Z,
    SetTitle title s = Some [SysSetWindowTextW (HWND (wv s)) text] /\
    last text = Some 0 /\
    (has_NUL title = false -> text = utf16_Encode title ++ [0]) /\
    (has_NUL title = true -> SetTitle title s = SetTitle EmptyString s).
Proof.
  unfold SetTitle, UTF16FromString.
  change (has_NUL EmptyString) with false. cbn [default].
  destruct (has_NUL title).
  - exists (utf16_Encode EmptyString ++ [0]). repeat split.
    + destruct (utf16_Encode EmptyString); reflexivity.
    + apply last_snoc.
    + discriminate.
  - exists (utf16_Encode title ++ [0]). repeat split.
    + destruct (utf16_Encode title); reflexivity.
    + apply last_snoc.
    + discriminate.
Qed.



(** ** From [Dispatch] to the call *)

(** X21: a closure handed to [Dispatch] is called at the next wake-up
    message that [Run] gets, after the closures queued before it and once;
    what the closures of that pass dispatched is the queue afterwards. *)
Theorem Dispatch_then_wake (t : Task) s :
  m (wv s) = false ->
  exists s',
    (Dispatch t ;;; Run [WMApp]) s =
      Some (tt, s',
            EvPostThreadMessage (mainthread (wv s)) WMApp
            :: flat_map (calls_of (mainthread (wv s))) (dispatchq (wv s))
            ++ calls_of (mainthread (wv s)) t
            ++ [EvTranslateMessage WMApp; EvDispatchMessage WMApp]) /\
    dispatchq (wv s') = flat_map dispatched_by (dispatchq (wv s)) ++ dispatched_by t /\
    m (wv s') = false.
Proof.
  intros Hm. destruct s as [[hw mt mx mn mu b q] h x]; simpl in *; subst mu.
  eexists. split.
  - unfold bind. rewrite Dispatch_free by reflexivity. simpl.
    rewrite Z.eqb_refl. unfold bind.
    rewrite drain_eq by reflexivity. simpl.
    rewrite !flat_map_app; simpl. rewrite !app_nil_r, <- app_assoc. reflexivity.
  - simpl. auto.
Qed.

End MoreProperties.

(** * The properties at work on the small platform *)

Section Instances.
#[local] Existing Instance Demo.platform.

Import Demo.

(** C8 on the message [oops]. *)
Lemma msgcb_malformed_dropped_witness :
  json_Unmarshal_rpcMessage "oops" = inr (syntax_error "oops") /\
  msgcb "oops" (state [t1]) =
    Some (tt, state [t1],
          [EvLog "invalid RPC message: invalid character 'o' looking for beginning of value"]).
Proof.
  split; [reflexivity|].
  exact (proj1 (msgcb_malformed_dropped (P := platform) "oops" (syntax_error "oops")
                  (state [t1]) eq_refl)).
Defined.



(** C1 as amended, on the unbound method [nope], request 7. *)
Lemma unknown_method_resolves_null_witness :
  bindings (wv (state [])) !! "nope" = None /\
  callbinding (mkRpc 7 "nope" []) (state []) = Some (Void, state [], []) /\
  msgcb (envelope (mkRpc 7 "nope" [])) (state []) =
    Some (tt, state [[CallEval "window._rpc[7].resolve(null); window._rpc[7] = undefined"]],
          [EvPostThreadMessage 77 WMApp]).
Proof.
  split; [reflexivity|].
  exact (unknown_method_resolves_null (P := platform) (envelope (mkRpc 7 "nope" []))
           (mkRpc 7 "nope" []) (state []) eq_refl eq_refl eq_refl).
Defined.

(** C1 as stated fails: the request 7 for the unbound method [nope] gets a
    response, the resolve statement, dispatched like any other. *)
Lemma unknown_method_response_dispatched :
  json_Unmarshal_rpcMessage (envelope (mkRpc 7 "nope" [])) = inl (mkRpc 7 "nope" []) /\
  bindings (wv (state [])) !! "nope" = None /\
  msgcb (envelope (mkRpc 7 "nope" [])) (state []) =
    Some (tt, state [[CallEval "window._rpc[7].resolve(null); window._rpc[7] = undefined"]],
          [EvPostThreadMessage 77 WMApp]) /\
  dispatchq (wv (state [[CallEval "window._rpc[7].resolve(null); window._rpc[7] = undefined"]]))
    <> dispatchq (wv (state [])).
Proof.
  split; [reflexivity|]. split; [reflexivity|]. split; [reflexivity|discriminate].
Qed.


(** C4 on [add(1, x)], request 6: the second parameter is no number. *)
Lemma decode_failure_aborts_witness :
  json_Unmarshal "x" TInt = inr (syntax_error "x") /\
  exists (j : nat) (raw' : RawMessage) (t' : GoType) (err' : GoValue),
    (j <= 1)%nat /\ Params (mkRpc 6 "add" ["1"; "x"]) !! j = Some raw' /\
    param_type add_fn (Z.of_nat j) = Some t' /\
    json_Unmarshal raw' t' = inr err' /\
    (forall (k : nat) (rawk : RawMessage) (tk : GoType),
       (k < j)%nat -> Params (mkRpc 6 "add" ["1"; "x"]) !! k = Some rawk ->
       param_type add_fn (Z.of_nat k) = Some tk ->
       exists c, json_Unmarshal rawk tk = inl c) /\
    callbinding (mkRpc 6 "add" ["1"; "x"]) (state []) =
      Some ((None, Some (go_error err')), state [], []).
Proof.
  split; [reflexivity|].
  apply (decode_failure_aborts (P := platform) (mkRpc 6 "add" ["1"; "x"]) (state []) add_fn
           1%nat "x" TInt (syntax_error "x")); try reflexivity.
  intros [[_ H]|[H _]]; [apply H; reflexivity|discriminate].
Defined.


(** C9 as amended, on [func() (int, int)]: [Bind] takes it. *)
Lemma bind_checks_the_count_only_witness :
  NumOut pair_fn <= 2 /\
  Bind "pair" (AnyFunc pair_fn) fresh =
    Some (None,
          with_wv (with_bindings (<["pair" := pair_fn]> ∅) (wv fresh)) fresh,
          [EvBrowserInit ("(function() { var name = " +:+ quote +:+ "pair" +:+ quote
                          +:+ ";" +:+ bind_script)]) /\
  Bind "three" (AnyFunc triple_fn) fresh =
    Some (Some (errors_New "function may only return a value or a value+error"), fresh, []).
Proof.
  assert (Hn : NumOut pair_fn <= 2) by discriminate.
  split; [exact Hn|]. split.
  - exact (proj1 (bind_checks_the_count_only (P := platform) "pair" fresh eq_refl) pair_fn Hn).
  - apply (bind_checks_the_count_only (P := platform) "three" fresh eq_refl).
    reflexivity.
Defined.

(** C9 as stated fails: [Bind] returns nil for [func() (int, int)], whose
    second return type does not implement error; the binding is registered
    and the script injected. *)
Lemma bind_accepts_a_non_error_second_value :
  outs pair_fn = [TInt; TInt] /\ Implements_error TInt = false /\
  Bind "pair" (AnyFunc pair_fn) fresh =
    Some (None,
          with_wv (with_bindings (<["pair" := pair_fn]> ∅) (wv fresh)) fresh,
          [EvBrowserInit ("(function() { var name = " +:+ quote +:+ "pair" +:+ quote
                          +:+ ";" +:+ bind_script)]) /\
  bindings (wv fresh) !! "pair" = None /\
  (<["pair" := pair_fn]> (∅ : gmap string Func)) !! "pair" = Some pair_fn.
Proof.
  split; [reflexivity|]. split; [reflexivity|]. split; [reflexivity|].
  split; [reflexivity|]. apply lookup_insert_eq.
Qed.


End Instances.

(** * More of the code, at work on the small platform *)

Section MoreInstances.
#[local] Existing Instance Demo.platform.
#[local] Existing Instance DemoWindow.user32.

Import Demo DemoWindow.

(** X1 on two closures dispatched after [t1]. *)
Lemma dispatch_all_appends_witness :
  dispatch_all [t3; t4] (state [t1]) =
    Some (tt, state [t1; t3; t4],
          [EvPostThreadMessage 77 WMApp; EvPostThreadMessage 77 WMApp]).
Proof.
  exact (dispatch_all_appends (P := platform) [t3; t4] (state [t1]) eq_refl).
Defined.


(** X3 on the queue [t1], [t3]. *)
Lemma drain_twice_witness :
  (drain ;;; drain) (state [t1; t3]) = drain (state [t1; t3]).
Proof.
  exact (drain_twice (P := platform) (state [t1; t3]) eq_refl eq_refl).
Defined.

(** X4: a size message, the quit message, then a wake-up that is not
    seen. *)
Lemma Run_stops_at_quit_witness :
  WMQuit <> WMApp /\
  Run ([0x0005] ++ WMQuit :: [WMApp]) (state [t1]) = Run [0x0005] (state [t1]).
Proof.
  assert (H : WMQuit <> WMApp) by discriminate.
  split; [exact H|].
  exact (Run_stops_at_quit (P := platform) [0x0005] [WMApp] (state [t1]) H).
Defined.

(** X5 on a size and a paint message, with [t1] queued. *)
Lemma Run_without_wake_witness :
  Run [0x0005; 0x000F] (state [t1]) =
    Some (tt, state [t1],
          [EvTranslateMessage 0x0005; EvDispatchMessage 0x0005;
           EvTranslateMessage 0x000F; EvDispatchMessage 0x000F]).
Proof.
  apply (Run_without_wake (P := platform) [0x0005; 0x000F] (state [t1])).
  repeat constructor; discriminate.
Defined.





(** X10 on [sum(1, 2, 3)], request 4: three arguments of the element
    type. *)
Lemma call_arguments_witness :
  exists args : list Value,
    callbinding (mkRpc 4 "sum" ["1"; "2"; "3"]) (state []) =
      Some (Ok (Some (VInt 6)), with_host 1%nat (state []), [EvCall "sum" args]) /\
    length args = 3%nat /\
    forall (i : nat) (raw : RawMessage),
      ["1"; "2"; "3"] !! i = Some raw ->
      exists t c,
        param_type sum_fn (Z.of_nat i) = Some t /\ json_Unmarshal raw t = inl c /\
        args !! i = Some (mkValue t c).
Proof.
  exists [mkValue (P := platform) TInt (Some (VInt 1));
          mkValue (P := platform) TInt (Some (VInt 2));
          mkValue (P := platform) TInt (Some (VInt 3))].
  split; [reflexivity|].
  destruct (call_arguments (P := platform) (mkRpc 4 "sum" ["1"; "2"; "3"]) (state []) sum_fn
              (Ok (P := platform) (Some (VInt 6)))
              (with_host (P := platform) 1%nat (state []))
              [EvCall (P := platform) "sum"
                 [mkValue (P := platform) TInt (Some (VInt 1));
                  mkValue (P := platform) TInt (Some (VInt 2));
                  mkValue (P := platform) TInt (Some (VInt 3))]]
              "sum"
              [mkValue (P := platform) TInt (Some (VInt 1));
               mkValue (P := platform) TInt (Some (VInt 2));
               mkValue (P := platform) TInt (Some (VInt 3))]
              eq_refl eq_refl eq_refl (or_introl eq_refl))
    as (_ & _ & Hlen & Hall & _).
  split; [exact Hlen|exact Hall].
Defined.

(** X11: [add] bound as [f], then [tick] bound as [f]. *)
Lemma Bind_last_wins_witness :
  exists s' ev,
    (Bind "f" (AnyFunc add_fn) ;;; Bind "f" (AnyFunc tick_fn)) fresh = Some (None, s', ev) /\
    bindings (wv s') !! "f" = Some tick_fn /\
    length ev = 2%nat.
Proof.
  destruct (Bind_last_wins (P := platform) "f" add_fn tick_fn fresh eq_refl)
    as (s' & Hrun & Hb & _); [discriminate|discriminate|].
  exists s'. eexists. split; [exact Hrun|]. split; [exact Hb|reflexivity].
Defined.

(** X12: [add] bound in a new WebView, then called by request 1. *)
Lemma Bind_then_callbinding_witness :
  exists s' script,
    (Bind "add" (AnyFunc add_fn) ;;; callbinding (mkRpc 1 "add" ["2"; "3"])) fresh =
      Some (Ok (Some (VInt 5)), s',
            [EvBrowserInit script;
             EvCall "add" [mkValue TInt (Some (VInt 2)); mkValue TInt (Some (VInt 3))]]).
Proof.
  eexists _, _.
  apply (Bind_then_callbinding (P := platform) "add" add_fn (mkRpc 1 "add" ["2"; "3"]) fresh
           [mkValue (P := platform) TInt (Some (VInt 2));
            mkValue (P := platform) TInt (Some (VInt 3))]);
    try reflexivity; try discriminate.
  intros [[_ H]|[H _]]; [apply H; reflexivity|discriminate].
Defined.

(** X14: a window of 640 by 480 on a screen of 1920 by 1080. *)
Lemma SetSize_center_witness :
  exists s' (style' : Z),
    SetSize 640 480 HintCenter (state []) =
      Some (tt, s',
            [EvSetWindowLongPtr 0x1A2B (uintptr GWLStyle) style';
             EvMoveWindow 0x1A2B 640 300 640 480;
             EvBrowserResize]).
Proof.
  destruct (proj2 (SetSize_center (P := platform) 640 480 (state []))
              (mkRect 0 0 640 480) 1920 1080 eq_refl eq_refl)
    as (s' & style' & left & top & Hrun & Hl0 & Hl & Ht0 & Ht); try lia.
  assert (left = 640) as -> by lia.
  assert (top = 300) as -> by lia.
  exists s', style'. exact Hrun.
Defined.

(** X15 on the hint 7. *)
Lemma SetSize_unknown_hint_witness :
  SetSize 800 600 7 (state []) = SetSize 800 600 HintNone (state []).
Proof.
  apply (SetSize_unknown_hint (P := platform) 800 600 7 (state [])); discriminate.
Defined.

(** X16: a second window gets a context. *)
Lemma windowContext_round_trip_witness :
  exists r',
    setWindowContext 0x2C3D (DataOther (VInt 9)) registry = Some r' /\
    getWindowContext 0x2C3D r' = Some (DataOther (VInt 9), r') /\
    getWindowContext 0x1A2B r' = Some (DataWebView, r') /\
    getWindowContext 0x2C3D registry = Some (DataNil, registry).
Proof.
  destruct (windowContext_round_trip (P := platform) 0x2C3D (DataOther (P := platform) (VInt 9))
              registry eq_refl eq_refl)
    as (r' & Hset & _ & _ & Hget & Hother & Hnone).
  exists r'. split; [exact Hset|]. split; [exact Hget|]. split.
  - apply (Hother 0x1A2B). discriminate.
  - apply (Hnone 0x2C3D). reflexivity.
Defined.

(** X17: a maximum of 800 by 600. *)
Lemma SetSize_then_wndproc_witness :
  exists s' ev lpmmi',
    SetSize 800 600 HintMax (state []) = Some (tt, s', ev) /\
    wndproc registry s' 0x1A2B WMGetMinMaxInfo 0 0 minmax = Some (0, lpmmi', []) /\
    PtMaxSize lpmmi' = mkPoint 800 600 /\
    PtMaxTrackSize lpmmi' = mkPoint 800 600.
Proof.
  destruct (SetSize_then_wndproc (P := platform) (U := user32) registry (state []) 0x1A2B 0 0
              minmax 800 600 eq_refl eq_refl)
    as [(s' & ev & lpmmi' & Hs & Hw & H1 & H2 & _) _]; try discriminate; try lia.
  exists s', ev, lpmmi'. repeat split; assumption.
Defined.

(** X18: a maximum of 0 by 600 is no bound. *)
Lemma wndproc_ignores_a_non_positive_bound_witness :
  exists s' ev lpmmi',
    SetSize 0 600 HintMax (state []) = Some (tt, s', ev) /\
    wndproc registry s' 0x1A2B WMGetMinMaxInfo 0 0 minmax = Some (0, lpmmi', []) /\
    PtMaxSize lpmmi' = mkPoint 1920 1080 /\
    PtMaxTrackSize lpmmi' = mkPoint 1932 1092.
Proof.
  destruct (wndproc_ignores_a_non_positive_bound (P := platform) (U := user32) registry
              (state []) 0x1A2B 0 0 minmax 0 600 eq_refl eq_refl)
    as (s' & ev & lpmmi' & Hs & Hw & H1 & H2); try discriminate.
  { left. discriminate. }
  exists s', ev, lpmmi'. repeat split; assumption.
Defined.

(** X19: a window that is not registered, and a paint message for the
    registered one. *)
Lemma wndproc_default_witness :
  wndproc registry (state []) 0x9999 WMSize 0 0 minmax =
    Some (0, minmax, [SysDefWindowProcW 0x9999 WMSize 0 0]) /\
  wndproc registry (state []) 0x1A2B 0x000F 0 0 minmax =
    Some (0, minmax, [SysDefWindowProcW 0x1A2B 0x000F 0 0]).
Proof.
  split.
  - apply (proj1 (wndproc_default (P := platform) (U := user32) registry (state []) 0x9999
                    WMSize 0 0 minmax eq_refl)).
    intros H. change (DataNil (P := platform) = DataWebView) in H. discriminate H.
  - apply (proj1 (proj2 (wndproc_default (P := platform) (U := user32) registry (state [])
                           0x1A2B 0x000F 0 0 minmax eq_refl))); discriminate.
Defined.

(** X21: [t3] dispatched while [t1] is queued, then a wake-up. *)
Lemma Dispatch_then_wake_witness :
  exists s',
    (Dispatch t3 ;;; Run [WMApp]) (state [t1]) =
      Some (tt, s',
            [EvPostThreadMessage 77 WMApp; EvBrowserEval "a()"; EvBrowserEval "d()";
             EvTranslateMessage WMApp; EvDispatchMessage WMApp]) /\
    dispatchq (wv s') = [].
Proof.
  destruct (Dispatch_then_wake (P := platform) t3 (state [t1]) eq_refl)
    as (s' & Hrun & Hq & _).
  exists s'. split; [exact Hrun|exact Hq].
Defined.

End MoreInstances.
